(** * xpag.tools.utils: backend classification, conversion and dispatch

    A shallow embedding of [src/xpag/tools/utils.py].

    The module is a table of run-time type tests that route a value to the
    matching function of torch, numpy or jax.  The embedding has three
    layers:

    - the utilities themselves ([get_datatype], [datatype_convert],
      [reshape], [hstack], [maximum], [squeeze], [where_]), written as the
      source writes them: a chain of tests on the class and device of the
      operands, ending in [raise] or in [return <library expression>];
    - a reference semantics of the library functions that those expressions
      call, over a store of objects and buffers, at the granularity the
      source itself observes (class, [device.type], gradient tracking,
      object identity, buffer sharing);
    - [get_env_dimensions], over a store of dictionaries. *)

From stdpp Require Import base strings list gmap.

Open Scope string_scope.

(** ** Outcomes of a Python call *)

Inductive exn :=
| TypeError (msg : string)
| RuntimeError (msg : string)
| ValueError (msg : string)
| AttributeError (msg : string)
| KeyError (msg : string)
| IndexError (msg : string).

Inductive py (A : Type) :=
| Return (a : A)
| Raise (e : exn).
Arguments Return {A} a.
Arguments Raise {A} e.

(** ** Data model *)

(** [class DataType(Enum)] *)
Inductive DataType := TORCH_CPU | TORCH_CUDA | NUMPY | JAX.

Definition DataType_value (d : DataType) : string :=
  match d with
  | TORCH_CPU => "data represented as torch tensors on CPU"
  | TORCH_CUDA => "data represented as torch tensors on GPU"
  | NUMPY => "data represented as numpy arrays"
  | JAX => "data represented as jax DeviceArrays"
  end.

#[global] Instance DataType_eq_dec : EqDecision DataType.
Proof. solve_decision. Defined.

(** What the run-time type tests of the module can tell about an object:
    its class and, for a torch tensor, the kind of its device
    ([x.device.type]) and whether it takes part in gradient tracking
    ([x.requires_grad], which [detach] clears).  The three array classes
    are unrelated, so at most one type test holds of an object; [other]
    stands for every other class, such as [list] or [float]. *)
Inductive pyobject :=
| Tensor (device_type : string) (requires_grad : bool)
| DeviceArray
| ndarray
| other (type_name : string).

#[global] Instance pyobject_eq_dec : EqDecision pyobject.
Proof. solve_decision. Defined.

(** A value is a reference to an object: [oid] is the identity that
    Python's [is] compares, [data_ptr] names the buffer that holds the
    elements, and several objects may share one buffer. *)
Record value := Value {
  oid : nat;
  obj : pyobject;
  shape : list nat;
  data_ptr : nat
}.

#[global] Instance value_eq_dec : EqDecision value.
Proof. solve_decision. Defined.

(** [torch.is_tensor(x)] *)
Definition torch_is_tensor (x : value) : bool :=
  match obj x with Tensor _ _ => true | _ => false end.

(** [isinstance(x, DeviceArray)] *)
Definition isinstance_DeviceArray (x : value) : bool :=
  match obj x with DeviceArray => true | _ => false end.

(** [isinstance(x, np.ndarray)] *)
Definition isinstance_ndarray (x : value) : bool :=
  match obj x with ndarray => true | _ => false end.

(** [x.device.type], read only after [torch.is_tensor(x)] held. *)
Definition device_type_of (x : value) : string :=
  match obj x with Tensor d _ => d | _ => "" end.

(** [f"{type(x)}"] *)
Definition type_repr (x : value) : string :=
  match obj x with
  | Tensor _ _ => "<class 'torch.Tensor'>"
  | DeviceArray => "<class 'jaxlib.xla_extension.DeviceArray'>"
  | ndarray => "<class 'numpy.ndarray'>"
  | other n => "<class '" ++ n ++ "'>"
  end.

(** ** Classification *)

(** The two error kinds of the specification.  In the source both are a
    [TypeError]; they differ by the raise site and its message. *)
Definition UnsupportedDeviceError : exn :=
  TypeError "PyTorch devices other than CPU or CUDA (e.g. XLA) are not handled.".

Definition UnrecognizedTypeError (x : value) : exn :=
  TypeError (type_repr x ++ " not handled.").

Definition get_datatype (x : value) : py DataType :=
  if torch_is_tensor x then
    if decide (device_type_of x = "cpu") then Return TORCH_CPU
    else if decide (device_type_of x = "cuda") then Return TORCH_CUDA
    else Raise UnsupportedDeviceError
  else if isinstance_DeviceArray x then Return JAX
  else if isinstance_ndarray x then Return NUMPY
  else Raise (UnrecognizedTypeError x).

(** ** Library expressions

    Every other utility ends in [return e] where [e] is the argument itself
    or a nest of calls into torch, numpy or jax.  The utilities are embedded
    as functions that build this expression; [eval] below runs it. *)

Inductive fn1 :=
| Tensor_to (device : string)       (* x.to(device=...) *)
| Tensor_detach                     (* x.detach() *)
| Tensor_cpu                        (* x.cpu() *)
| Tensor_numpy                      (* x.numpy() *)
| torch_tensor (device : string)    (* torch.tensor(x, device=...) *)
| np_array                          (* np.array(x) *)
| jnp_array                         (* jnp.array(x) *)
| method_reshape (shp : list Z)     (* x.reshape(shape) *)
| torch_squeeze
| jnp_squeeze
| np_squeeze.

Inductive fn2 :=
| torch_hstack | jnp_hstack | np_hstack
| torch_maximum | jnp_maximum | np_maximum.

Inductive fn3 := torch_where | jnp_where | np_where.

Inductive expr :=
| Obj (x : value)
| Call1 (f : fn1) (a : expr)
| Call2 (f : fn2) (a b : expr)
| Call3 (f : fn3) (c a b : expr).

#[global] Instance fn1_eq_dec : EqDecision fn1.
Proof. solve_decision. Defined.
#[global] Instance fn2_eq_dec : EqDecision fn2.
Proof. solve_decision. Defined.
#[global] Instance fn3_eq_dec : EqDecision fn3.
Proof. solve_decision. Defined.
#[global] Instance expr_eq_dec : EqDecision expr.
Proof. solve_decision. Defined.

Inductive backend := Torch | Jax | Numpy.

#[global] Instance backend_eq_dec : EqDecision backend.
Proof. solve_decision. Defined.

Definition backend_of2 (f : fn2) : backend :=
  match f with
  | torch_hstack | torch_maximum => Torch
  | jnp_hstack | jnp_maximum => Jax
  | np_hstack | np_maximum => Numpy
  end.

Definition backend_of3 (f : fn3) : backend :=
  match f with
  | torch_where => Torch
  | jnp_where => Jax
  | np_where => Numpy
  end.

(** ** Conversion *)

(** [datatype] ranges over the four tags and [None], as annotated; the
    last [elif datatype == DataType.JAX] is then the remaining case. *)
Definition datatype_convert (x : value) (datatype : option DataType) : expr :=
  match datatype with
  | None => Obj x
  | Some dt =>
    if decide (dt = TORCH_CPU \/ dt = TORCH_CUDA) then
      if torch_is_tensor x then
        if decide (dt = TORCH_CPU) then Call1 (Tensor_to "cpu") (Obj x)
        else Call1 (Tensor_to "cuda") (Obj x)
      else if isinstance_DeviceArray x then
        if decide (dt = TORCH_CPU)
        then Call1 (torch_tensor "cpu") (Call1 np_array (Obj x))
        else Call1 (torch_tensor "cuda") (Call1 np_array (Obj x))
      else
        if decide (dt = TORCH_CPU) then Call1 (torch_tensor "cpu") (Obj x)
        else Call1 (torch_tensor "cuda") (Obj x)
    else if decide (dt = NUMPY) then
      if torch_is_tensor x then
        Call1 Tensor_numpy (Call1 Tensor_cpu (Call1 Tensor_detach (Obj x)))
      else if isinstance_ndarray x then Obj x
      else Call1 np_array (Obj x)
    else (* dt = JAX *)
      if torch_is_tensor x then
        Call1 jnp_array
          (Call1 Tensor_numpy (Call1 Tensor_cpu (Call1 Tensor_detach (Obj x))))
      else if isinstance_DeviceArray x then Obj x
      else Call1 jnp_array (Obj x)
  end.

(** A call site of [datatype_convert]: the second argument may be left out,
    in which case Python binds the default written in the signature,
    [datatype: Union[DataType, None] = DataType.NUMPY]. *)
Inductive actual :=
| omitted
| passed (datatype : option DataType).

Definition datatype_default : option DataType := Some NUMPY.

Definition bind_datatype (a : actual) : option DataType :=
  match a with
  | omitted => datatype_default
  | passed d => d
  end.

Definition datatype_convert_call (x : value) (a : actual) : expr :=
  datatype_convert x (bind_datatype a).

(** ** Dispatching operations *)

Definition reshape (x : value) (shp : list Z) : expr :=
  if torch_is_tensor x || isinstance_ndarray x || isinstance_DeviceArray x
  then Call1 (method_reshape shp) (Obj x)
  else Call1 (method_reshape shp) (Call1 np_array (Obj x)).

Definition hstack (x y : value) : expr :=
  if torch_is_tensor x && torch_is_tensor y then
    Call2 torch_hstack (Obj x) (Obj y)
  else if isinstance_DeviceArray x && isinstance_DeviceArray y then
    Call2 jnp_hstack (Obj x) (Obj y)
  else Call2 np_hstack (Obj x) (Obj y).

Definition maximum (x y : value) : expr :=
  if torch_is_tensor x && torch_is_tensor y then
    Call2 torch_maximum (Obj x) (Obj y)
  else if isinstance_DeviceArray x && isinstance_DeviceArray y then
    Call2 jnp_maximum (Obj x) (Obj y)
  else Call2 np_maximum (Obj x) (Obj y).

Definition squeeze (x : value) : expr :=
  if torch_is_tensor x then Call1 torch_squeeze (Obj x)
  else if isinstance_DeviceArray x then Call1 jnp_squeeze (Obj x)
  else Call1 np_squeeze (Obj x).

Definition where_ (condition x y : value) : expr :=
  if torch_is_tensor x && torch_is_tensor y then
    Call3 torch_where (Obj condition) (Obj x) (Obj y)
  else if isinstance_DeviceArray x && isinstance_DeviceArray y then
    Call3 jnp_where (Obj condition) (Obj x) (Obj y)
  else Call3 np_where (Obj condition) (Obj x) (Obj y).

(** The backend whose function a dual-operand expression calls, and the
    objects it passes. *)
Definition called_backend (e : expr) : option backend :=
  match e with
  | Call2 f _ _ => Some (backend_of2 f)
  | Call3 f _ _ _ => Some (backend_of3 f)
  | _ => None
  end.

Definition passed_objects (e : expr) : option (list value) :=
  match e with
  | Call2 _ (Obj x) (Obj y) => Some [x; y]
  | Call3 _ (Obj c) (Obj x) (Obj y) => Some [c; x; y]
  | _ => None
  end.

Definition both_tensors (x y : value) : bool :=
  torch_is_tensor x && torch_is_tensor y.

Definition both_DeviceArrays (x y : value) : bool :=
  isinstance_DeviceArray x && isinstance_DeviceArray y.

(** The dispatch rule of the dual-operand functions, on the expression
    they return. *)
Definition dispatch_rule (x y : value) (e : expr) : Prop :=
  (called_backend e = Some Torch <-> both_tensors x y = true) /\
  (called_backend e = Some Jax <-> both_DeviceArrays x y = true) /\
  (called_backend e = Some Numpy <->
     both_tensors x y = false /\ both_DeviceArrays x y = false).

(** ** Reference semantics of the library calls

    torch, numpy and jax are not part of the repository; what the
    utilities rely on is their documented behaviour, written down here as
    an interpreter of library expressions over a store.

    - The store holds the buffers.  An object has an identity and points
      to a buffer; a call that makes a new object takes the next identity,
      a call that copies takes a new buffer at the end of the heap, a call
      that returns a view makes a new object on the old buffer.
    - Elements are opaque ([elt]) and conversions move them verbatim:
      element types and their precision are not modelled.  A conversion
      in which the library changes the element type ([torch.tensor] of
      Python floats, [jnp.array] of 64-bit numbers) rounds or wraps the
      elements; statements about elements are therefore made only for
      conversions that keep the element type.
    - A device is known by its kind, as in the source ([device.type]), and
      every kind is taken to be available; a machine with several devices
      of one kind is outside the model.
    - The layout of the elements in memory is not modelled.  [reshape]
      on a tensor or an ndarray gives a view when the layout allows it
      and a copy otherwise: which of the two is left to the library
      ([reshape_view]).
    - jax arrays cannot be written to; a jax function is modelled as
      giving a new array, also where an implementation may hand back its
      operand (a reshape to the same shape, say).
    - What the stacking and element-wise functions compute, which shapes
      they accept and which class they give their result is left to the
      library ([Kernels]); the interpreter fixes only that they read their
      operands and put the result in a new buffer.  A numpy function
      reads an operand as a host array, but the class of its result may
      depend on the class the operand had ([np.maximum] with a tensor
      operand hands its result to the tensor's [__array_wrap__]), so the
      kernel is told that class. *)

Record array (elt : Type) := Array {
  a_obj : pyobject;
  a_shape : list nat;
  a_data : list elt
}.
Arguments Array {elt} _ _ _.
Arguments a_obj {elt} _.
Arguments a_shape {elt} _.
Arguments a_data {elt} _.

Class Kernels (elt : Type) := {
  (* the shape [x.reshape(shape)] gives to an array of the first shape *)
  reshape_shape : list nat -> list Z -> option (list nat);
  (* whether [x.reshape(shape)] can be a view of the tensor or ndarray [x] *)
  reshape_view : value -> list Z -> bool;
  (* hstack and maximum on operands the function has accepted *)
  kernel2 : fn2 -> array elt -> array elt -> py (array elt);
  (* where *)
  kernel3 : fn3 -> array elt -> array elt -> array elt -> py (array elt)
}.

Record world (elt : Type) := World {
  next_oid : nat;
  heap : list (list elt)
}.
Arguments World {elt} _ _.
Arguments next_oid {elt} _.
Arguments heap {elt} _.

Definition M (elt A : Type) : Type := world elt -> py (A * world elt).

#[global] Instance M_ret {elt} : MRet (M elt) :=
  fun A a σ => Return (a, σ).

#[global] Instance M_bind {elt} : MBind (M elt) :=
  fun A B k m σ =>
    match m σ with
    | Return (a, σ') => k a σ'
    | Raise e => Raise e
    end.

Definition raise {elt A} (e : exn) : M elt A := fun _ => Raise e.

Definition lift {elt A} (r : py A) : M elt A :=
  fun σ => match r with Return a => Return (a, σ) | Raise e => Raise e end.

Section Library.
Context {elt : Type} `{K : Kernels elt}.

(** The elements an object denotes, with its class and shape. *)
Definition contents (σ : world elt) (x : value) : option (array elt) :=
  Array (obj x) (shape x) <$> heap σ !! data_ptr x.

Definition read (x : value) : M elt (array elt) :=
  fun σ =>
    match contents σ x with
    | Some a => Return (a, σ)
    | None => Raise (RuntimeError "object without a buffer")
    end.

(** A new object over a new buffer. *)
Definition alloc (o : pyobject) (s : list nat) (d : list elt) : M elt value :=
  fun σ =>
    Return (Value (next_oid σ) o s (length (heap σ)),
            World (S (next_oid σ)) (heap σ ++ [d])).

(** A new object over the buffer of an existing one. *)
Definition alias (o : pyobject) (s : list nat) (p : nat) : M elt value :=
  fun σ =>
    Return (Value (next_oid σ) o s p, World (S (next_oid σ)) (heap σ)).

(** [x.numpy()]: only for a tensor in host memory that is out of
    gradient tracking; the array shares the tensor's storage. *)
Definition numpy_of_tensor (x : value) : M elt value :=
  match obj x with
  | Tensor d g =>
    if decide (d = "cpu") then
      if g then
        raise (RuntimeError
          "Can't call numpy() on Tensor that requires grad. Use tensor.detach().numpy() instead.")
      else alias ndarray (shape x) (data_ptr x)
    else
      raise (TypeError
        ("can't convert " ++ d ++ " device type tensor to numpy. Use Tensor.cpu() to copy the tensor to host memory first."))
  | _ => raise (AttributeError (type_repr x ++ " object has no attribute 'numpy'"))
  end.

(** How numpy (and jax.numpy) take an operand that is array-like: an
    ndarray as it is, a tensor through its [__array__] method, which is
    [numpy()] and so fails for a tensor on a GPU or in gradient tracking,
    anything else by building a host array from it. *)
Definition asarray (x : value) : M elt value :=
  match obj x with
  | ndarray => mret x
  | Tensor _ _ => numpy_of_tensor x
  | DeviceArray | other _ => a ← read x; alloc ndarray (shape x) (a_data a)
  end.

(** [x.to(device=...)]: the tensor itself when it is already on the
    device, else a copy on that device. *)
Definition tensor_to (x : value) (device : string) : M elt value :=
  match obj x with
  | Tensor d g =>
    if decide (d = device) then mret x
    else a ← read x; alloc (Tensor device g) (shape x) (a_data a)
  | _ => raise (AttributeError (type_repr x ++ " object has no attribute 'to'"))
  end.

(** [np.squeeze], [torch.squeeze], [jnp.squeeze] without an axis: all
    dimensions of length one are dropped. *)
Definition squeeze_shape (s : list nat) : list nat :=
  filter (λ n, n ≠ 1) s.

Definition reshaped (s : list nat) (shp : list Z) : M elt (list nat) :=
  match reshape_shape s shp with
  | Some s' => mret s'
  | None => raise (ValueError "cannot reshape array into the requested shape")
  end.

(** The calls with one operand.
    - [detach()] gives a new tensor on the same storage, out of gradient
      tracking; [cpu()] is [to] for the host.
    - [torch.tensor] always copies and gives a tensor out of gradient
      tracking; [np.array] and [jnp.array] copy into a new array.
    - [reshape] gives a view or a copy on a tensor or an ndarray and a
      new array on a DeviceArray; [torch.squeeze] gives a view,
      [np.squeeze] the array itself when there is nothing to squeeze and
      a view otherwise, [jnp.squeeze] a new array. *)
Definition lib1 (f : fn1) (x : value) : M elt value :=
  match f with
  | Tensor_to device => tensor_to x device
  | Tensor_detach =>
    match obj x with
    | Tensor d _ => alias (Tensor d false) (shape x) (data_ptr x)
    | _ => raise (AttributeError (type_repr x ++ " object has no attribute 'detach'"))
    end
  | Tensor_cpu =>
    match obj x with
    | Tensor _ _ => tensor_to x "cpu"
    | _ => raise (AttributeError (type_repr x ++ " object has no attribute 'cpu'"))
    end
  | Tensor_numpy => numpy_of_tensor x
  | torch_tensor device =>
    a ← read x; alloc (Tensor device false) (shape x) (a_data a)
  | np_array =>
    y ← asarray x; a ← read y; alloc ndarray (shape y) (a_data a)
  | jnp_array =>
    y ← asarray x; a ← read y; alloc DeviceArray (shape y) (a_data a)
  | method_reshape shp =>
    match obj x with
    | Tensor _ _ | ndarray =>
      s ← reshaped (shape x) shp;
      if reshape_view x shp then alias (obj x) s (data_ptr x)
      else a ← read x; alloc (obj x) s (a_data a)
    | DeviceArray =>
      s ← reshaped (shape x) shp; a ← read x; alloc DeviceArray s (a_data a)
    | other _ =>
      raise (AttributeError (type_repr x ++ " object has no attribute 'reshape'"))
    end
  | torch_squeeze =>
    match obj x with
    | Tensor _ _ => alias (obj x) (squeeze_shape (shape x)) (data_ptr x)
    | _ => raise (TypeError "squeeze(): argument 'input' must be Tensor")
    end
  | jnp_squeeze =>
    y ← asarray x; a ← read y;
    alloc DeviceArray (squeeze_shape (shape y)) (a_data a)
  | np_squeeze =>
    y ← asarray x;
    if decide (squeeze_shape (shape y) = shape y) then mret y
    else alias ndarray (squeeze_shape (shape y)) (data_ptr y)
  end.

(** An operand as the function of a backend receives it: numpy coerces
    it to a host array first and reads the elements there, knowing the
    class the operand came with; torch and jax read it where it is. *)
Definition operand (b : backend) (x : value) : M elt (array elt) :=
  match b with
  | Numpy =>
    y ← asarray x; a ← read y; mret (Array (obj x) (a_shape a) (a_data a))
  | Torch | Jax => read x
  end.

(** The outcome of a kernel, as an object over a new buffer. *)
Definition result (r : py (array elt)) : M elt value :=
  a ← lift r; alloc (a_obj a) (a_shape a) (a_data a).

Definition lib2 (f : fn2) (x y : value) : M elt value :=
  a ← operand (backend_of2 f) x;
  b ← operand (backend_of2 f) y;
  result (kernel2 f a b).

Definition lib3 (f : fn3) (c x y : value) : M elt value :=
  k ← operand (backend_of3 f) c;
  a ← operand (backend_of3 f) x;
  b ← operand (backend_of3 f) y;
  result (kernel3 f k a b).

(** Python evaluates the arguments of a call from left to right, then
    the call. *)
Fixpoint eval (e : expr) : M elt value :=
  match e with
  | Obj x => mret x
  | Call1 f a => x ← eval a; lib1 f x
  | Call2 f a b => x ← eval a; y ← eval b; lib2 f x y
  | Call3 f c a b => k ← eval c; x ← eval a; y ← eval b; lib3 f k x y
  end.

End Library.

(** ** Environment dimensions

    [get_env_dimensions] works on dictionaries, which are mutable and
    passed by reference: the store maps each dictionary's address to its
    current contents, and a store outlives an exception. *)

Inductive pyval :=
| PyInt (n : Z)
| PyNone
| PyStr (s : string).

#[global] Instance pyval_eq_dec : EqDecision pyval.
Proof. solve_decision. Defined.

(** A gym space, as far as the function looks into it: its [shape]
    attribute (a tuple, or [None] for a dictionary space) and, for a
    dictionary space, its sub-spaces by key. *)
#[warnings="-register-all"]
Inductive space :=
| Box (shp : list Z)
| DictSpace (spaces : list (string * space)).

(** The attributes of [env] that the function reads; [None] stands for an
    attribute the object does not have. *)
Record environment := Environment {
  is_vector_env : option bool;
  single_action_space : option space;
  single_observation_space : option space;
  action_space : option space;
  observation_space : option space
}.

#[global] Instance py_ret : MRet py := fun A a => Return a.

#[global] Instance py_bind : MBind py :=
  fun A B k m => match m with Return a => k a | Raise e => Raise e end.

(** [env.<name>] *)
Definition getattr (name : string) (a : option space) : py space :=
  match a with
  | Some s => Return s
  | None => Raise (AttributeError ("object has no attribute '" ++ name ++ "'"))
  end.

(** [s[key]] *)
Definition getitem (s : space) (key : string) : py space :=
  match s with
  | DictSpace spaces =>
    match list_find (λ kv, kv.1 = key) spaces with
    | Some (_, (_, sub)) => Return sub
    | None => Raise (KeyError key)
    end
  | Box _ => Raise (TypeError "'Box' object is not subscriptable")
  end.

(** [s.shape[-1]] *)
Definition shape_last (s : space) : py pyval :=
  match s with
  | Box shp =>
    match last shp with
    | Some n => Return (PyInt n)
    | None => Raise (IndexError "tuple index out of range")
    end
  | DictSpace _ => Raise (TypeError "'NoneType' object is not subscriptable")
  end.

Abbreviation dstore := (list (gmap string pyval)).

Definition D (A : Type) : Type := dstore -> py A * dstore.

#[global] Instance D_ret : MRet D := fun A a σ => (Return a, σ).

#[global] Instance D_bind : MBind D :=
  fun A B k m σ =>
    match m σ with
    | (Return a, σ') => k a σ'
    | (Raise e, σ') => (Raise e, σ')
    end.

(** A pure expression inside a statement. *)
Definition expression {A} (r : py A) : D A := fun σ => (r, σ).

(** [{}] *)
Definition new_dict : D nat :=
  fun σ => (Return (length σ), (σ ++ [∅])%list).

(** [d[key] = v] *)
Definition setitem (d : nat) (key : string) (v : pyval) : D unit :=
  fun σ =>
    match σ !! d with
    | Some m => (Return tt, <[d := <[key := v]> m]> σ)
    | None => (Raise (TypeError "object does not support item assignment"), σ)
    end.

Definition get_env_dimensions (info : nat) (is_goalenv : bool)
    (env : environment) : D nat :=
  let gymvecenv :=
    match is_vector_env env with Some b => b | None => false end in
  dims ← new_dict;
  (if gymvecenv then
     v ← expression
       (s ← getattr "single_action_space" (single_action_space env);
        shape_last s);
     setitem info "action_dim" v;;
     v ← expression
       (if is_goalenv then
          s ← getattr "single_observation_space" (single_observation_space env);
          o ← getitem s "observation"; shape_last o
        else
          s ← getattr "single_observation_space" (single_observation_space env);
          shape_last s);
     setitem info "observation_dim" v;;
     v ← expression
       (if is_goalenv then
          s ← getattr "single_observation_space" (single_observation_space env);
          o ← getitem s "achieved_goal"; shape_last o
        else Return PyNone);
     setitem info "achieved_goal_dim" v;;
     v ← expression
       (if is_goalenv then
          s ← getattr "single_observation_space" (single_observation_space env);
          o ← getitem s "desired_goal"; shape_last o
        else Return PyNone);
     setitem info "desired_goal_dim" v
   else
     v ← expression
       (s ← getattr "action_space" (action_space env); shape_last s);
     setitem info "action_dim" v;;
     v ← expression
       (if is_goalenv then
          s ← getattr "observation_space" (observation_space env);
          o ← getitem s "observation"; shape_last o
        else
          s ← getattr "observation_space" (observation_space env);
          shape_last s);
     setitem info "observation_dim" v;;
     v ← expression
       (if is_goalenv then
          s ← getattr "observation_space" (observation_space env);
          o ← getitem s "achieved_goal"; shape_last o
        else Return PyNone);
     setitem info "achieved_goal_dim" v;;
     v ← expression
       (if is_goalenv then
          s ← getattr "observation_space" (observation_space env);
          o ← getitem s "desired_goal"; shape_last o
        else Return PyNone);
     setitem info "desired_goal_dim" v);;
  mret dims.

(** The four assignments of either branch of [get_env_dimensions], given
    the four right-hand sides. *)
Definition assign_dims (info : nat) (e1 e2 e3 e4 : py pyval) : D unit :=
  v ← expression e1; setitem info "action_dim" v;;
  v ← expression e2; setitem info "observation_dim" v;;
  v ← expression e3; setitem info "achieved_goal_dim" v;;
  v ← expression e4; setitem info "desired_goal_dim" v.

(** The dictionary [info] refers to after the four assignments. *)
Definition with_dims (m : gmap string pyval) (a o ag dg : pyval)
    : gmap string pyval :=
  <["desired_goal_dim" := dg]>
    (<["achieved_goal_dim" := ag]>
       (<["observation_dim" := o]> (<["action_dim" := a]> m))).

(** The objects an expression mentions. *)
Fixpoint objs (e : expr) : list value :=
  match e with
  | Obj x => [x]
  | Call1 _ a => objs a
  | Call2 _ a b => objs a ++ objs b
  | Call3 _ c a b => objs c ++ objs a ++ objs b
  end.

(** ** The operations of the utility as one interface *)

Inductive operation :=
| call_get_datatype (x : value)
| call_datatype_convert (x : value) (a : actual)
| call_reshape (x : value) (shp : list Z)
| call_hstack (x y : value)
| call_maximum (x y : value)
| call_squeeze (x : value)
| call_where (condition x y : value).

Inductive answer :=
| Tag (d : DataType)
| Ref (v : value).

Definition operands (o : operation) : list value :=
  match o with
  | call_get_datatype x | call_datatype_convert x _ | call_reshape x _
  | call_squeeze x => [x]
  | call_hstack x y | call_maximum x y => [x; y]
  | call_where c x y => [c; x; y]
  end.

Definition perform {elt} `{K : Kernels elt} (o : operation) : M elt answer :=
  match o with
  | call_get_datatype x => d ← lift (get_datatype x); mret (Tag d)
  | call_datatype_convert x a => r ← eval (datatype_convert_call x a); mret (Ref r)
  | call_reshape x shp => r ← eval (reshape x shp); mret (Ref r)
  | call_hstack x y => r ← eval (hstack x y); mret (Ref r)
  | call_maximum x y => r ← eval (maximum x y); mret (Ref r)
  | call_squeeze x => r ← eval (squeeze x); mret (Ref r)
  | call_where c x y => r ← eval (where_ c x y); mret (Ref r)
  end.

(** ** Properties of a store, an object and a run *)

(** [x] is an object of the store: its identity has been handed out and
    its buffer exists. *)
Definition object_of {elt} (σ : world elt) (x : value) : Prop :=
  oid x < next_oid σ /\ data_ptr x < length (heap σ).

(** Every buffer of the first store is in the second, with the same
    elements. *)
Definition buffers_kept {elt} (σ σ' : world elt) : Prop :=
  forall p d, heap σ !! p = Some d -> heap σ' !! p = Some d.

(** The buffer of [r] did not exist in the store. *)
Definition fresh_buffer {elt} (σ : world elt) (r : value) : Prop :=
  heap σ !! data_ptr r = None.

(** The footprint of a call: the heap only grows at its end, and
    identities are handed out in increasing order. *)
Definition grows {elt} (σ σ' : world elt) : Prop :=
  heap σ `prefix_of` heap σ' /\ next_oid σ <= next_oid σ'.

(** Where the buffer of a result comes from, relative to an argument: it is
    new, or it is the argument's. *)
Definition buffer_from {elt} (σ : world elt) (x r : value) : Prop :=
  fresh_buffer σ r \/ data_ptr r = data_ptr x.

(** numpy can take [x] as a host array: a tensor must be in host memory
    and out of gradient tracking. *)
Definition host_coercible (x : value) : Prop :=
  match obj x with
  | Tensor d g => d = "cpu" /\ g = false
  | _ => True
  end.

(** The purity statement in its strict form: after a successful call all
    buffers are as before, and a returned object is one of the operands or
    lives in a buffer made by the call. *)
Definition fresh_or_same {elt} `{K : Kernels elt}
    (σ : world elt) (o : operation) : Prop :=
  forall r σ', perform o σ = Return (Ref r, σ') ->
    buffers_kept σ σ' /\ (r ∈ operands o \/ fresh_buffer σ r).

(** ** Further vocabulary for the utilities *)

(** The class [reshape] and [squeeze] give their result: the class of
    the argument, or [ndarray] for an argument of no array class. *)
Definition keep_class (o : pyobject) : pyobject :=
  match o with
  | other _ => ndarray
  | _ => o
  end.

(** [gymvecenv] of the source. *)
Definition gymvecenv (env : environment) : bool :=
  match is_vector_env env with Some b => b | None => false end.

(** The two attributes the branch taken reads. *)
Definition spaces_read (env : environment) : option space * option space :=
  if gymvecenv env
  then (single_action_space env, single_observation_space env)
  else (action_space env, observation_space env).

(** The four right-hand sides of the branch taken, in the order of the
    assignments. *)
Definition dim_expressions (is_goalenv : bool) (env : environment)
    : py pyval * py pyval * py pyval * py pyval :=
  if gymvecenv env then
    (s ← getattr "single_action_space" (single_action_space env);
     shape_last s,
     if is_goalenv then
       s ← getattr "single_observation_space" (single_observation_space env);
       o ← getitem s "observation"; shape_last o
     else
       s ← getattr "single_observation_space" (single_observation_space env);
       shape_last s,
     if is_goalenv then
       s ← getattr "single_observation_space" (single_observation_space env);
       o ← getitem s "achieved_goal"; shape_last o
     else Return PyNone,
     if is_goalenv then
       s ← getattr "single_observation_space" (single_observation_space env);
       o ← getitem s "desired_goal"; shape_last o
     else Return PyNone)
  else
    (s ← getattr "action_space" (action_space env); shape_last s,
     if is_goalenv then
       s ← getattr "observation_space" (observation_space env);
       o ← getitem s "observation"; shape_last o
     else
       s ← getattr "observation_space" (observation_space env);
       shape_last s,
     if is_goalenv then
       s ← getattr "observation_space" (observation_space env);
       o ← getitem s "achieved_goal"; shape_last o
     else Return PyNone,
     if is_goalenv then
       s ← getattr "observation_space" (observation_space env);
       o ← getitem s "desired_goal"; shape_last o
     else Return PyNone).

(** The keys [get_env_dimensions] writes. *)
Definition dim_keys : list string :=
  ["action_dim"; "observation_dim"; "achieved_goal_dim"; "desired_goal_dim"].

(** ** The RLJAX agent ([rljax_interface.py])

    Values of parameters: the literals of the source, as written, and
    whatever the caller puts into [params]. *)
Inductive lit :=
| LFloat (text : string)
| LInt (n : Z)
| LBool (b : bool)
| LNone
| LTuple (items : list Z).

#[global] Instance lit_eq_dec : EqDecision lit.
Proof. solve_decision. Defined.

(** The dictionary literal assigned to [self.sac_params], in the order of
    its keys. *)
Definition sac_params_default : list (string * lit) :=
  [ ("actor_lr", LFloat "3e-4");
    ("critic_lr", LFloat "3e-3");
    ("temp_lr", LFloat "3e-4");
    ("backup_entropy", LBool true);
    ("discount", LFloat "0.99");
    ("hidden_dims", LTuple [256; 256]%Z);
    ("init_temperature", LFloat "1.0");
    ("init_mean", LNone);
    ("target_entropy", LNone);
    ("target_update_period", LInt 1);
    ("tau", LFloat "5e-2");
    ("policy_final_fc_init_scale", LFloat "1.0") ].

(** One turn of [for key in self.sac_params], on a [self.params] that is
    a dictionary. *)
Definition override_step (self_params : gmap string lit)
    (sac_params : gmap string lit) (key : string) : gmap string lit :=
  match self_params !! key with
  | Some v => <[key := v]> sac_params
  | None => sac_params
  end.

(** The loop over the keys; [key in self.params] raises when
    [self.params] is [None]. *)
Fixpoint override_loop (self_params : option (gmap string lit))
    (keys : list string) (sac_params : gmap string lit)
    : py (gmap string lit) :=
  match keys with
  | [] => Return sac_params
  | key :: rest =>
    match self_params with
    | Some m => override_loop self_params rest (override_step m sac_params key)
    | None => Raise (TypeError "argument of type 'NoneType' is not iterable")
    end
  end.

(** What [self] holds of the attributes [__init__] assigns, at the time
    it is passed on: [self.params], left by the base class, and
    [self.sac_params].  The object is passed by reference, so whoever
    receives it can read them. *)
Record agent_attributes := {
  attr_params : option (gmap string lit);
  attr_sac_params : gmap string lit
}.

(** The call [SAC(self, np.inf, start_seed, ...)]: the class is not part
    of the sources at hand, so the object is the record of the arguments
    it is built from, [self] first. *)
Record SAC := SAC_new {
  sac_agent : agent_attributes;
  sac_num_agent_steps : lit;
  sac_seed : lit;
  sac_kwargs : list (string * lit)
}.

Definition SAC_call (self : agent_attributes) (start_seed : lit) : SAC :=
  SAC_new self (LFloat "inf") start_seed
    [ ("max_grad_norm", LNone);
      ("gamma", LFloat "0.99");
      ("nstep", LInt 1);
      ("num_critics", LInt 2);
      ("buffer_size", LNone);
      ("use_per", LBool false);
      ("batch_size", LInt 256);
      ("start_steps", LInt 10000);
      ("update_interval", LInt 1);
      ("tau", LFloat "5e-3");
      ("fn_actor", LNone);
      ("fn_critic", LNone);
      ("lr_actor", LFloat "3e-4");
      ("lr_critic", LFloat "3e-4");
      ("lr_alpha", LFloat "3e-4");
      ("units_actor", LTuple [256; 256]%Z);
      ("units_critic", LTuple [256; 256]%Z);
      ("log_std_min", LFloat "-20.0");
      ("log_std_max", LFloat "2.0");
      ("d2rl", LBool false);
      ("init_alpha", LFloat "1.0");
      ("adam_b1_alpha", LFloat "0.9") ].

Record RLJAXSAC := {
  self_params : option (gmap string lit);
  self_sac_params : gmap string lit;
  self_sac : SAC
}.

(** [RLJAXSAC.__init__].  [super().__init__] belongs to a class that is
    not part of the sources at hand: its outcome, an exception or the
    value it leaves in [self.params], is an argument, as is the number
    [np.random.randint(1e9)] draws. *)
Definition RLJAXSAC_init (params : option (gmap string lit))
    (super_init : py (option (gmap string lit))) (draw : Z) : py RLJAXSAC :=
  base_params ← super_init;
  start_seed ←
    match params with
    | None => Raise (TypeError "argument of type 'NoneType' is not iterable")
    | Some p =>
      match p !! "seed" with
      | None => Return (LInt draw)
      | Some v => Return v
      end
    end;
  sac_params ←
    override_loop base_params sac_params_default.*1
      (list_to_map sac_params_default);
  Return {| self_params := base_params;
            self_sac_params := sac_params;
            self_sac :=
              SAC_call {| attr_params := base_params;
                          attr_sac_params := sac_params |} start_seed |}.

(** ** A small instance for examples: flat arrays of integers

    The stacking and element-wise functions of the three libraries on
    arrays of integers stored row by row, with 0 for false in the
    condition of [where]. *)

Definition numel (s : list nat) : nat := foldr Nat.mul 1 s.

(** Shapes that go together element by element: aligned at the last
    dimension, where two lengths go together when they are equal or one
    of them is 1.  The shapes are given last dimension first. *)
Fixpoint broadcast_rev (a b : list nat) : option (list nat) :=
  match a, b with
  | [], _ => Some b
  | _, [] => Some a
  | m :: a', n :: b' =>
    r ← broadcast_rev a' b';
    if decide (m = n) then Some (m :: r)
    else if decide (m = 1) then Some (n :: r)
    else if decide (n = 1) then Some (m :: r)
    else None
  end.

Definition broadcast_shape (a b : list nat) : option (list nat) :=
  reverse <$> broadcast_rev (reverse a) (reverse b).

(** The first [k] pieces of [n] elements of a row-major array. *)
Fixpoint chunks (n k : nat) (d : list Z) : list (list Z) :=
  match k with
  | 0 => []
  | S k' => take n d :: chunks n k' (drop n d)
  end.

(** The elements of an array of shape [s], repeated to fill the shape
    [out] that [s] goes together with. *)
Fixpoint broadcast_to (out s : list nat) (d : list Z) : list Z :=
  match out with
  | [] => d
  | o :: out' =>
    if decide (length s < length out) then
      mjoin (replicate o (broadcast_to out' s d))
    else
      match s with
      | [] => d
      | m :: s' =>
        if decide (m = o)
        then mjoin (broadcast_to out' s' <$> chunks (numel s') m d)
        else mjoin (replicate o (broadcast_to out' s' d))
      end
  end.

(** [hstack]: operands without dimensions count as one element; arrays
    of one dimension are joined end to end, all others along their
    second dimension, and then every other dimension must agree. *)
Definition atleast_1d (s : list nat) : list nat :=
  match s with [] => [1] | _ => s end.

Definition hstack_arrays (sa : list nat) (da : list Z)
    (sb : list nat) (db : list Z) : option (list nat * list Z) :=
  match atleast_1d sa, atleast_1d sb with
  | [m], [n] => Some ([m + n], (da ++ db)%list)
  | r :: m :: ra, r' :: n :: rb =>
    if decide (r = r' /\ ra = rb) then
      Some (r :: (m + n) :: ra,
            mjoin (zip_with app (chunks (m * numel ra) r da)
                                (chunks (n * numel ra) r db)))
    else None
  | _, _ => None
  end.

(** [x.reshape(shape)]: the lengths must give the number of elements;
    one of them may be -1, which stands for the length that does. *)
Definition reshape_Z (s : list nat) (shp : list Z) : option (list nat) :=
  let n := Z.of_nat (numel s) in
  let known := filter (λ z, z ≠ (-1)%Z) shp in
  let p := foldr Z.mul 1%Z known in
  if decide (Exists (λ z, (z < -1)%Z) shp) then None
  else
    match length shp - length known with
    | 0 => if decide (p = n) then Some (Z.to_nat <$> shp) else None
    | 1 =>
      if decide ((0 < p)%Z /\ (n mod p)%Z = 0%Z)
      then Some ((λ z, Z.to_nat (if decide (z = (-1)%Z) then (n / p)%Z else z))
                   <$> shp)
      else None
    | _ => None
    end.

Definition is_tensor (a : array Z) : bool :=
  match a_obj a with Tensor _ _ => true | _ => false end.

Definition tracks_gradient (a : array Z) : bool :=
  match a_obj a with Tensor _ g => g | _ => false end.

Definition on_device (d : string) (a : array Z) : bool :=
  match a_obj a with Tensor d' _ => bool_decide (d' = d) | _ => false end.

(** A CPU tensor without dimensions, which an element-wise torch
    function takes beside tensors on another device. *)
Definition cpu_scalar (a : array Z) : bool :=
  on_device "cpu" a && bool_decide (a_shape a = []).

Definition class_name (o : pyobject) : string :=
  match o with
  | Tensor _ _ => "Tensor"
  | DeviceArray => "DeviceArray"
  | ndarray => "numpy.ndarray"
  | other n => n
  end.

(** The tensor a torch function gives for these operands: each must be a
    tensor, all on one device, and the result tracks gradients when one
    of them does. *)
Definition torch_result (elementwise : bool) (ops : list (array Z))
    : py pyobject :=
  match list_find (λ a, is_tensor a = false) ops with
  | Some (_, a) =>
    Raise (TypeError ("expected Tensor as argument, not " ++ class_name (a_obj a)))
  | None =>
    let g := existsb tracks_gradient ops in
    match filter (λ a, (elementwise && cpu_scalar a) = false) ops with
    | [] => Return (Tensor "cpu" g)
    | a :: rest =>
      let d := match a_obj a with Tensor d _ => d | _ => "" end in
      if forallb (on_device d) rest then Return (Tensor d g)
      else Raise (RuntimeError "Expected all tensors to be on the same device")
    end
  end.

(** The class of a result.  A numpy function gives a host array, except
    that an element-wise one ([np.maximum]) with a tensor among its
    operands gives a CPU tensor, through the tensor's [__array_wrap__]. *)
Definition result_class (b : backend) (elementwise ufunc : bool)
    (ops : list (array Z)) : py pyobject :=
  match b with
  | Torch => torch_result elementwise ops
  | Jax => Return DeviceArray
  | Numpy =>
    Return (if ufunc && existsb is_tensor ops then Tensor "cpu" false
            else ndarray)
  end.

Definition shape_error (b : backend) (msg : string) : exn :=
  match b with
  | Torch => RuntimeError msg
  | Jax | Numpy => ValueError msg
  end.

Definition Z_hstack (b : backend) (x y : array Z) : py (array Z) :=
  o ← result_class b false false [x; y];
  match hstack_arrays (a_shape x) (a_data x) (a_shape y) (a_data y) with
  | Some (s, d) => Return (Array o s d)
  | None => Raise (shape_error b "the dimensions of the arrays do not match")
  end.

Definition Z_maximum (b : backend) (x y : array Z) : py (array Z) :=
  o ← result_class b true true [x; y];
  match broadcast_shape (a_shape x) (a_shape y) with
  | Some s =>
    Return (Array o s
              (zip_with Z.max (broadcast_to s (a_shape x) (a_data x))
                              (broadcast_to s (a_shape y) (a_data y))))
  | None => Raise (shape_error b "operands could not be broadcast together")
  end.

Definition Z_where (b : backend) (c x y : array Z) : py (array Z) :=
  o ← result_class b true false [c; x; y];
  match broadcast_shape (a_shape x) (a_shape y) ≫= broadcast_shape (a_shape c) with
  | Some s =>
    Return (Array o s
              (zip_with (λ k xy, if decide (k = 0%Z) then xy.2 else xy.1)
                 (broadcast_to s (a_shape c) (a_data c))
                 (zip (broadcast_to s (a_shape x) (a_data x))
                      (broadcast_to s (a_shape y) (a_data y)))))
  | None => Raise (shape_error b "operands could not be broadcast together")
  end.

(** The arrays of the examples are laid out row by row, so a reshape of
    one of them is a view. *)
#[global] Instance Z_kernels : Kernels Z := {|
  reshape_shape := reshape_Z;
  reshape_view _ _ := true;
  kernel2 f a b :=
    match f with
    | torch_hstack | jnp_hstack | np_hstack => Z_hstack (backend_of2 f) a b
    | torch_maximum | jnp_maximum | np_maximum => Z_maximum (backend_of2 f) a b
    end;
  kernel3 f c a b := Z_where (backend_of3 f) c a b
|}.

(** A store with a GPU tensor of shape (4,3) that tracks gradients, a CPU
    tensor, a host array, a list, a jax array, a tensor on an XLA device
    and a GPU tensor out of gradient tracking. *)
Definition store0 : world Z :=
  World 7 [ [1; 2; 3; 4; 5; 6; 7; 8; 9; 10; 11; 12];
            [1; 5; 2]; [4; 0; 6]; [7; 8; 9]; [3; 3; 3];
            [2; 2; 2]; [9; 1; 4] ]%Z.

Definition gpu_tensor : value := Value 0 (Tensor "cuda" true) [4; 3] 0.
Definition cpu_tensor : value := Value 1 (Tensor "cpu" false) [3] 1.
Definition host_array : value := Value 2 ndarray [3] 2.
Definition plain_list : value := Value 3 (other "list") [3] 3.
Definition jax_array : value := Value 4 DeviceArray [3] 4.
Definition xla_tensor : value := Value 5 (Tensor "xla" false) [3] 5.
Definition gpu_vector : value := Value 6 (Tensor "cuda" false) [3] 6.

(** What [x.numpy()] says of a tensor on a "cuda" device. *)
Definition cuda_message : string :=
  "can't convert cuda device type tensor to numpy. Use Tensor.cpu() to copy the tensor to host memory first.".

(** Two environments and a caller's dictionary. *)
Definition box_env : environment :=
  Environment None None None (Some (Box [2%Z])) (Some (Box [4; 17]%Z)).

Definition goal_vec_env : environment :=
  Environment (Some true)
    (Some (Box [3%Z]))
    (Some (DictSpace [("observation", Box [10%Z]);
                      ("achieved_goal", Box [2%Z]);
                      ("desired_goal", Box [2%Z])]))
    None None.

Definition caller_store : dstore := [ {[ "env_name" := PyStr "HalfCheetah-v4" ]} ].

(** An environment without action space, and parameters of an agent. *)
Definition spaceless_env : environment :=
  Environment None None None None (Some (Box [4%Z])).

Definition seeded_params : gmap string lit :=
  {[ "seed" := LInt 7; "tau" := LFloat "1e-2"; "gamma" := LFloat "0.9" ]}.


(** * Classification *)

Lemma string_app_assoc (a b c : string) :
  ((a ++ b) ++ c = a ++ (b ++ c))%string.
Proof.
  induction a as [|ch a IH]; [reflexivity|].
  change (String ch ((a ++ b) ++ c) = String ch (a ++ (b ++ c)))%string.
  rewrite IH. reflexivity.
Qed.

Lemma type_tests_exclusive (x : value) :
  (torch_is_tensor x = true -> isinstance_DeviceArray x = false /\ isinstance_ndarray x = false) /\
  (isinstance_DeviceArray x = true -> isinstance_ndarray x = false).
Proof. destruct x as [i [d g| | |n] s p]; cbn; intuition congruence. Qed.

(** C1. [get_datatype] tries the representations in a fixed order and the
    first match decides: a torch tensor is classified by the kind of its
    device, "cpu" giving [TORCH_CPU], "cuda" giving [TORCH_CUDA] and any
    other kind raising the unsupported-device error; otherwise a
    DeviceArray gives [JAX]; otherwise an ndarray gives [NUMPY]; otherwise
    (a Python list, say) the unrecognized-type error is raised. *)
Theorem get_datatype_first_match (x : value) :
  (torch_is_tensor x = true ->
     (device_type_of x = "cpu" -> get_datatype x = Return TORCH_CPU) /\
     (device_type_of x = "cuda" -> get_datatype x = Return TORCH_CUDA) /\
     (device_type_of x <> "cpu" -> device_type_of x <> "cuda" ->
        get_datatype x = Raise UnsupportedDeviceError)) /\
  (torch_is_tensor x = false -> isinstance_DeviceArray x = true ->
     get_datatype x = Return JAX) /\
  (torch_is_tensor x = false -> isinstance_DeviceArray x = false ->
     isinstance_ndarray x = true -> get_datatype x = Return NUMPY) /\
  (torch_is_tensor x = false -> isinstance_DeviceArray x = false ->
     isinstance_ndarray x = false ->
     get_datatype x = Raise (UnrecognizedTypeError x)) /\
  (forall n, obj x = other n ->
     get_datatype x = Raise (TypeError ("<class '" ++ n ++ "'> not handled."))).
Proof.
  unfold get_datatype, UnrecognizedTypeError, type_repr, torch_is_tensor,
    isinstance_DeviceArray, isinstance_ndarray, device_type_of.
  destruct x as [i [d g| | |n] s p]; cbn.
  all: repeat match goal with |- _ /\ _ => split end.
  all: try (intros; try discriminate; reflexivity).
  - intros _. split; [|split].
    + intros ->. reflexivity.
    + intros ->. reflexivity.
    + intros H1 H2. rewrite !decide_False by assumption. reflexivity.
  - intros n0 H. injection H as <-. do 2 f_equal.
    rewrite !string_app_assoc. reflexivity.
Qed.

Lemma get_datatype_first_match_witness :
  get_datatype gpu_tensor = Return TORCH_CUDA /\
  get_datatype xla_tensor = Raise UnsupportedDeviceError /\
  get_datatype plain_list = Raise (TypeError "<class 'list'> not handled.").
Proof.
  split; [|split].
  - destruct (get_datatype_first_match gpu_tensor) as [Ht _].
    destruct (Ht eq_refl) as (_ & Hcuda & _). exact (Hcuda eq_refl).
  - destruct (get_datatype_first_match xla_tensor) as [Ht _].
    destruct (Ht eq_refl) as (_ & _ & Hother).
    apply Hother; vm_compute; discriminate.
  - destruct (get_datatype_first_match plain_list) as (_ & _ & _ & _ & Hlist).
    exact (Hlist "list" eq_refl).
Defined.

(** * Conversion *)

Open Scope list_scope.

Lemma heap_new {A} (h : list A) (d : A) : (h ++ [d]) !! length h = Some d.
Proof. rewrite lookup_app_r by lia. by rewrite Nat.sub_diag. Qed.

Lemma heap_old {A} (h l : list A) (p : nat) (d : A) :
  h !! p = Some d -> (h ++ l) !! p = Some d.
Proof. apply lookup_app_l_Some. Qed.

(** Proofs about a run evaluate the interpreter on the shape of the
    operands: [run] unfolds it in the goal and [run_all] everywhere,
    [cases] settles the tests on tags and devices, [go] alternates them
    with the look-ups in the heap, and [unwind] does the same on a run
    given as a hypothesis. *)
Ltac run :=
  cbv [eval lib1 lib2 lib3 operand result backend_of2 backend_of3
       tensor_to numpy_of_tensor asarray read alloc alias contents
       mbind mret M_bind M_ret raise lift fmap option_fmap option_map
       obj shape data_ptr oid heap next_oid a_obj a_shape a_data].

Ltac run_all :=
  cbv [eval lib1 lib2 lib3 operand result backend_of2 backend_of3
       tensor_to numpy_of_tensor asarray read alloc alias contents
       mbind mret M_bind M_ret raise lift fmap option_fmap option_map
       obj shape data_ptr oid heap next_oid a_obj a_shape a_data] in *.

Ltac cases :=
  try (progress simplify_eq);
  repeat first
    [ rewrite decide_True by (first [reflexivity | left; reflexivity | right; reflexivity])
    | rewrite decide_False by (first [discriminate | intros [?|?]; discriminate])
    | case_decide; simplify_eq;
      try congruence; try (exfalso; intuition congruence) ].

Ltac go :=
  repeat (progress run
          || rewrite heap_new
          || match goal with
             | H : ?h !! ?p = Some _ |- context [?h !! ?p] => rewrite H
             | |- context [(?h ++ ?l) !! ?p] =>
               erewrite (heap_old h l p)
                 by (repeat first [eassumption | apply heap_old])
             end
          || (progress cases)).

Ltac unwind :=
  repeat first
    [ progress simplify_eq
    | case_decide
    | progress run_all
    | match goal with
      | H : context [match ?l !! ?q with _ => _ end] |- _ =>
        destruct (l !! q) eqn:?
      end ];
  try solve [exfalso; intuition congruence].

Lemma get_datatype_inv (v : value) (A : DataType) :
  get_datatype v = Return A ->
  match A with
  | TORCH_CPU => exists g, obj v = Tensor "cpu" g
  | TORCH_CUDA => exists g, obj v = Tensor "cuda" g
  | NUMPY => obj v = ndarray
  | JAX => obj v = DeviceArray
  end.
Proof.
  unfold get_datatype, torch_is_tensor, isinstance_DeviceArray,
    isinstance_ndarray, device_type_of.
  destruct (obj v) as [d g| | |m]; repeat case_decide; intros [= <-];
    subst; eauto.
Qed.

(** Brings a classified value and its store into the form the
    interpreter computes on. *)
Ltac classified H σ v :=
  apply get_datatype_inv in H;
  destruct σ as [?n ?h], v as [?i ?o ?s ?p]; cbn [obj data_ptr heap shape] in *;
  match type of H with
  | match ?A with _ => _ end => destruct A
  end;
  try match type of H with
      | ex _ => destruct H as [?g H]
      end;
  subst.

(** Selects the branch of a utility on operands of known class. *)
Ltac pick :=
  unfold get_datatype, datatype_convert, datatype_convert_call, reshape,
    hstack, maximum, squeeze, where_, torch_is_tensor, isinstance_DeviceArray,
    isinstance_ndarray, device_type_of;
  cbn [obj andb orb]; cases.

Section Conversion.
Context {elt : Type} `{K : Kernels elt}.

(** C3. With [None] as target the argument itself is returned: the same
    object, and nothing is allocated or copied. *)
Theorem datatype_convert_None (x : value) (σ : world elt) :
  datatype_convert x None = Obj x /\
  eval (datatype_convert x None) σ = Return (x, σ).
Proof. split; reflexivity. Qed.

(** C6. Converting a value to the tag it is classified with returns the
    argument itself and leaves the store as it is: no object and no
    buffer is allocated. *)
Theorem datatype_convert_same_tag (σ : world elt) (v : value) (A : DataType) :
  get_datatype v = Return A ->
  eval (datatype_convert v (Some A)) σ = Return (v, σ).
Proof.
  intros H. classified H σ v; pick; go; reflexivity.
Qed.

(** C4. A value that [get_datatype] classifies can be converted to every
    tag, and the result of the conversion is classified with that tag. *)
Theorem get_datatype_datatype_convert
    (σ : world elt) (v : value) (A T : DataType) (d : list elt) :
  get_datatype v = Return A ->
  heap σ !! data_ptr v = Some d ->
  exists r σ',
    eval (datatype_convert v (Some T)) σ = Return (r, σ') /\
    get_datatype r = Return T.
Proof.
  intros H Hd. classified H σ v; destruct T; pick; go.
  all: eexists _, _; split; [reflexivity|]; pick; reflexivity.
Qed.

(** C5. With [NUMPY] as target: a torch tensor goes through [detach],
    [cpu] and [numpy], in this order, and comes out as a host array of
    the same shape and elements; an ndarray is returned as it is; from
    anything else a new array is built.  The tensor case includes a
    tensor on a GPU that tracks gradients. *)
Theorem datatype_convert_NUMPY (x : value) :
  (torch_is_tensor x = true ->
     datatype_convert x (Some NUMPY) =
       Call1 Tensor_numpy (Call1 Tensor_cpu (Call1 Tensor_detach (Obj x))) /\
     forall σ d, heap σ !! data_ptr x = Some d ->
       exists r σ',
         eval (datatype_convert x (Some NUMPY)) σ = Return (r, σ') /\
         obj r = ndarray /\ shape r = shape x /\
         heap σ' !! data_ptr r = Some d /\
         (device_type_of x <> "cpu" -> fresh_buffer σ r)) /\
  (torch_is_tensor x = false -> isinstance_ndarray x = true ->
     datatype_convert x (Some NUMPY) = Obj x /\
     forall σ, eval (datatype_convert x (Some NUMPY)) σ = Return (x, σ)) /\
  (torch_is_tensor x = false -> isinstance_ndarray x = false ->
     datatype_convert x (Some NUMPY) = Call1 np_array (Obj x) /\
     forall σ d, heap σ !! data_ptr x = Some d ->
       exists r σ',
         eval (datatype_convert x (Some NUMPY)) σ = Return (r, σ') /\
         obj r = ndarray /\ shape r = shape x /\
         heap σ' !! data_ptr r = Some d /\ fresh_buffer σ r).
Proof.
  unfold datatype_convert, torch_is_tensor, isinstance_ndarray,
    isinstance_DeviceArray, device_type_of, fresh_buffer.
  destruct x as [i [dv g| | |m] s p]; cbn.
  all: split; [|split]; intros; try discriminate.
  all: split; [reflexivity|]; try reflexivity.
  all: intros [n h] d Hd; cbn in Hd.
  - destruct (decide (dv = "cpu")) as [->|Hne]; go.
    + eexists _, _; split; [reflexivity|]; cbn. tauto.
    + eexists _, _; split; [reflexivity|]; cbn.
      rewrite heap_new. repeat split. intros _.
      apply lookup_ge_None_2. lia.
  - go. eexists _, _; split; [reflexivity|]; cbn.
    rewrite heap_new. repeat split. apply lookup_ge_None_2.
    rewrite length_app. cbn. lia.
  - go. eexists _, _; split; [reflexivity|]; cbn.
    rewrite heap_new. repeat split. apply lookup_ge_None_2.
    rewrite length_app. cbn. lia.
Qed.

(** C7. Converting a classified value to a host array and back to its
    own tag gives a value of that tag with the shape and the elements of
    the original, for each of the four tags. *)
Theorem round_trip_through_NUMPY
    (σ : world elt) (v : value) (A : DataType) (d : list elt) :
  get_datatype v = Return A ->
  heap σ !! data_ptr v = Some d ->
  exists w σ1 r σ2,
    eval (datatype_convert v (Some NUMPY)) σ = Return (w, σ1) /\
    eval (datatype_convert w (Some A)) σ1 = Return (r, σ2) /\
    get_datatype r = Return A /\
    shape r = shape v /\
    heap σ2 !! data_ptr r = Some d.
Proof.
  intros H Hd. classified H σ v; pick; go.
  all: eexists _, _, _, _; split; [reflexivity|]; pick; go.
  all: split; [reflexivity|]; pick; cbn [shape data_ptr heap]; go; auto.
Qed.

End Conversion.

(** * Dual-operand dispatch *)

Section Dispatch.
Context {elt : Type} `{K : Kernels elt}.

Lemma buffers_kept_app (n n' : nat) (h l : list (list elt)) :
  buffers_kept (World n h) (World n' (h ++ l)).
Proof. intros p d. cbn. apply heap_old. Qed.

Lemma buffers_kept_refl (n n' : nat) (h : list (list elt)) :
  buffers_kept (World n h) (World n' h).
Proof. intros p d. cbn. auto. Qed.

Lemma dual_dispatch_rule (c x y : value) :
  dispatch_rule x y (hstack x y) /\
  dispatch_rule x y (maximum x y) /\
  dispatch_rule x y (where_ c x y) /\
  passed_objects (hstack x y) = Some [x; y] /\
  passed_objects (maximum x y) = Some [x; y] /\
  passed_objects (where_ c x y) = Some [c; x; y].
Proof.
  unfold dispatch_rule, hstack, maximum, where_, both_tensors,
    both_DeviceArrays, torch_is_tensor, isinstance_DeviceArray.
  destruct x as [i [dx gx| | |mx] sx px], y as [j [dy gy| | |my] sy py];
    cbn; intuition congruence.
Qed.

(** What a numpy function does with two operands it can take as host
    arrays: it applies its kernel to their elements, read as host
    arrays, and knows the class each operand came with. *)
Lemma numpy_call2 (f : fn2) (x y : value) (σ : world elt) (dx dy : list elt) :
  backend_of2 f = Numpy ->
  heap σ !! data_ptr x = Some dx -> heap σ !! data_ptr y = Some dy ->
  host_coercible x -> host_coercible y ->
  exists σ1, buffers_kept σ σ1 /\
    eval (Call2 f (Obj x) (Obj y)) σ =
      result (kernel2 f (Array (obj x) (shape x) dx)
                        (Array (obj y) (shape y) dy)) σ1.
Proof.
  unfold host_coercible.
  destruct σ as [n h], x as [i [dvx gx| | |mx] sx px],
    y as [j [dvy gy| | |my] sy py]; cbn; intros Hf Hx Hy Cx Cy.
  all: destruct_and?; subst.
  all: cbv [eval lib2 mbind mret M_bind M_ret]; rewrite Hf.
  all: go.
  all: eexists (World _ _); split; [|reflexivity].
  all: first [apply buffers_kept_refl | apply buffers_kept_app
             | rewrite <- app_assoc; apply buffers_kept_app].
Qed.

Lemma numpy_call2_fails (f : fn2) (x y : value) (σ : world elt)
    (dx dy : list elt) :
  backend_of2 f = Numpy ->
  heap σ !! data_ptr x = Some dx -> heap σ !! data_ptr y = Some dy ->
  ¬ host_coercible x \/ ¬ host_coercible y ->
  exists err, eval (Call2 f (Obj x) (Obj y)) σ = Raise err.
Proof.
  unfold host_coercible.
  destruct σ as [n h], x as [i [dvx gx| | |mx] sx px],
    y as [j [dvy gy| | |my] sy py]; cbn; intros Hf Hx Hy Hc.
  all: try tauto.
  all: cbv [eval lib2 mbind mret M_bind M_ret]; rewrite Hf.
  all: try destruct gx; try destruct gy; go; eauto.
  all: exfalso; tauto.
Qed.

Lemma numpy_call3 (f : fn3) (c x y : value) (σ : world elt)
    (dc dx dy : list elt) :
  backend_of3 f = Numpy ->
  heap σ !! data_ptr c = Some dc ->
  heap σ !! data_ptr x = Some dx -> heap σ !! data_ptr y = Some dy ->
  host_coercible c -> host_coercible x -> host_coercible y ->
  exists σ1, buffers_kept σ σ1 /\
    eval (Call3 f (Obj c) (Obj x) (Obj y)) σ =
      result (kernel3 f (Array (obj c) (shape c) dc)
                        (Array (obj x) (shape x) dx)
                        (Array (obj y) (shape y) dy)) σ1.
Proof.
  unfold host_coercible.
  destruct σ as [n h], c as [k [dvc gc| | |mc] sc pc],
    x as [i [dvx gx| | |mx] sx px], y as [j [dvy gy| | |my] sy py];
    cbn; intros Hf Hc Hx Hy Cc Cx Cy.
  all: destruct_and?; subst.
  all: cbv [eval lib3 mbind mret M_bind M_ret]; rewrite Hf.
  all: go.
  all: eexists (World _ _); split; [|reflexivity].
  all: first [apply buffers_kept_refl | apply buffers_kept_app
             | rewrite <- !app_assoc; apply buffers_kept_app].
Qed.

Lemma numpy_call3_fails (f : fn3) (c x y : value) (σ : world elt)
    (dc dx dy : list elt) :
  backend_of3 f = Numpy ->
  heap σ !! data_ptr c = Some dc ->
  heap σ !! data_ptr x = Some dx -> heap σ !! data_ptr y = Some dy ->
  ¬ host_coercible c \/ ¬ host_coercible x \/ ¬ host_coercible y ->
  exists err, eval (Call3 f (Obj c) (Obj x) (Obj y)) σ = Raise err.
Proof.
  unfold host_coercible.
  destruct σ as [n h], c as [k [dvc gc| | |mc] sc pc],
    x as [i [dvx gx| | |mx] sx px], y as [j [dvy gy| | |my] sy py];
    cbn; intros Hf Hc Hx Hy Hn.
  all: try tauto.
  all: cbv [eval lib3 mbind mret M_bind M_ret]; rewrite Hf.
  all: try destruct gc; try destruct gx; try destruct gy; go; eauto.
  all: exfalso; tauto.
Qed.

Lemma fallback_is_numpy (c x y : value) :
  both_tensors x y = false -> both_DeviceArrays x y = false ->
  hstack x y = Call2 np_hstack (Obj x) (Obj y) /\
  maximum x y = Call2 np_maximum (Obj x) (Obj y) /\
  where_ c x y = Call3 np_where (Obj c) (Obj x) (Obj y).
Proof.
  unfold hstack, maximum, where_, both_tensors, both_DeviceArrays.
  intros -> ->. auto.
Qed.

(** C2, as the code has it.  For [hstack], [maximum] and [where] the
    torch function is called exactly when both operands are torch
    tensors and the jax function exactly when both are DeviceArrays; in
    every other combination the operands are handed to the numpy
    function as they are, and the utility itself rejects no combination.
    numpy reads each operand as a host array and applies its operation
    to the elements, so the call then succeeds or fails as that
    operation does, and its result is what the numpy function gives for
    operands of these classes: not a host array in every case, since
    [np.maximum] with a tensor among its operands returns a tensor.  The
    call fails before the operation when an operand is a tensor that
    numpy cannot take as a host array, one on a GPU or one in gradient
    tracking. *)
Theorem dual_operand_dispatch (c x y : value) :
  (dispatch_rule x y (hstack x y) /\
   dispatch_rule x y (maximum x y) /\
   dispatch_rule x y (where_ c x y) /\
   passed_objects (hstack x y) = Some [x; y] /\
   passed_objects (maximum x y) = Some [x; y] /\
   passed_objects (where_ c x y) = Some [c; x; y]) /\
  (both_tensors x y = false -> both_DeviceArrays x y = false ->
   forall (σ : world elt) dc dx dy,
     heap σ !! data_ptr c = Some dc ->
     heap σ !! data_ptr x = Some dx -> heap σ !! data_ptr y = Some dy ->
     (host_coercible x -> host_coercible y ->
        (exists σ1, buffers_kept σ σ1 /\
           eval (hstack x y) σ =
             result (kernel2 np_hstack (Array (obj x) (shape x) dx)
                                       (Array (obj y) (shape y) dy)) σ1) /\
        (exists σ1, buffers_kept σ σ1 /\
           eval (maximum x y) σ =
             result (kernel2 np_maximum (Array (obj x) (shape x) dx)
                                        (Array (obj y) (shape y) dy)) σ1) /\
        (host_coercible c ->
         exists σ1, buffers_kept σ σ1 /\
           eval (where_ c x y) σ =
             result (kernel3 np_where (Array (obj c) (shape c) dc)
                                      (Array (obj x) (shape x) dx)
                                      (Array (obj y) (shape y) dy)) σ1)) /\
     (¬ host_coercible x \/ ¬ host_coercible y ->
        (exists err, eval (hstack x y) σ = Raise err) /\
        (exists err, eval (maximum x y) σ = Raise err) /\
        (exists err, eval (where_ c x y) σ = Raise err))).
Proof.
  split; [apply dual_dispatch_rule|].
  intros Ht Hj σ dc dx dy Hc Hx Hy.
  destruct (fallback_is_numpy c x y Ht Hj) as (-> & -> & ->).
  split.
  - intros Cx Cy. repeat split.
    + by apply numpy_call2.
    + by apply numpy_call2.
    + intros Cc. by apply numpy_call3.
  - intros Hn. repeat split.
    + eapply numpy_call2_fails; eauto.
    + eapply numpy_call2_fails; eauto.
    + eapply numpy_call3_fails; eauto.
Qed.
End Dispatch.

(** * Purity *)

Section Purity.
Context {elt : Type} `{K : Kernels elt}.

Implicit Types (σ : world elt) (x y r : value).

Lemma bind_inv {A B} (m : M elt A) (k : A -> M elt B) σ b σ' :
  (a ← m; k a) σ = Return (b, σ') ->
  exists a σ1, m σ = Return (a, σ1) /\ k a σ1 = Return (b, σ').
Proof.
  unfold mbind, M_bind. destruct (m σ) as [[a σ1]|e]; [eauto | discriminate].
Qed.

Lemma read_inv x σ a σ' :
  read x σ = Return (a, σ') -> σ' = σ /\ heap σ !! data_ptr x = Some (a_data a).
Proof.
  unfold read, contents. destruct (heap σ !! data_ptr x); cbn; [|discriminate].
  intros [= <- <-]. auto.
Qed.

Lemma alloc_inv o s d σ r σ' :
  alloc o s d σ = Return (r, σ') ->
  heap σ' = heap σ ++ [d] /\ data_ptr r = length (heap σ) /\
  oid r = next_oid σ /\ next_oid σ' = S (next_oid σ).
Proof. intros [= <- <-]. auto. Qed.

Lemma alias_inv o s p σ r σ' :
  alias o s p σ = Return (r, σ') ->
  heap σ' = heap σ /\ data_ptr r = p /\
  oid r = next_oid σ /\ next_oid σ' = S (next_oid σ).
Proof. intros [= <- <-]. auto. Qed.

Lemma fresh_length σ r : fresh_buffer σ r <-> length (heap σ) <= data_ptr r.
Proof. unfold fresh_buffer. apply lookup_ge_None. Qed.

Lemma prefix_kept σ σ' : heap σ `prefix_of` heap σ' -> buffers_kept σ σ'.
Proof. intros [l Hl] p d. rewrite Hl. apply heap_old. Qed.

Lemma grows_refl σ : grows σ σ.
Proof. split; reflexivity. Qed.

Lemma grows_trans σ1 σ2 σ3 : grows σ1 σ2 -> grows σ2 σ3 -> grows σ1 σ3.
Proof. intros [? ?] [? ?]. split; [by etrans | lia]. Qed.

Lemma grows_fresh σ σ' r : grows σ σ' -> fresh_buffer σ' r -> fresh_buffer σ r.
Proof.
  intros [Hp _]. rewrite !fresh_length. apply prefix_length in Hp. lia.
Qed.

Lemma alloc_sound o s d σ r σ' :
  alloc o s d σ = Return (r, σ') -> grows σ σ' /\ fresh_buffer σ r.
Proof.
  intros (Hh & Hp & _ & Hn)%alloc_inv. split.
  - split; [rewrite Hh; by apply prefix_app_r | lia].
  - apply fresh_length. lia.
Qed.

Lemma alias_sound o s x σ r σ' :
  alias o s (data_ptr x) σ = Return (r, σ') -> grows σ σ' /\ buffer_from σ x r.
Proof.
  intros (Hh & Hp & _ & Hn)%alias_inv. split.
  - split; [by rewrite Hh | lia].
  - by right.
Qed.

Lemma numpy_of_tensor_sound x σ r σ' :
  numpy_of_tensor x σ = Return (r, σ') -> grows σ σ' /\ buffer_from σ x r.
Proof.
  unfold numpy_of_tensor.
  destruct (obj x) as [d [|]| | |]; try discriminate;
    case_decide; try discriminate.
  apply alias_sound.
Qed.

Lemma copy_sound x o s σ r σ' :
  (a ← read x; alloc o s (a_data a)) σ = Return (r, σ') ->
  grows σ σ' /\ fresh_buffer σ r.
Proof.
  intros (a & σ1 & [-> _]%read_inv & H)%bind_inv. by eapply alloc_sound.
Qed.

Lemma asarray_sound x σ r σ' :
  asarray x σ = Return (r, σ') -> grows σ σ' /\ buffer_from σ x r.
Proof.
  unfold asarray. destruct (obj x) eqn:Hx.
  - apply numpy_of_tensor_sound.
  - intros Hc%copy_sound. unfold buffer_from. tauto.
  - intros [= <- <-]. split; [apply grows_refl | by right].
  - intros Hc%copy_sound. unfold buffer_from. tauto.
Qed.

Lemma tensor_to_sound x dev σ r σ' :
  tensor_to x dev σ = Return (r, σ') -> grows σ σ' /\ buffer_from σ x r.
Proof.
  unfold tensor_to. destruct (obj x); try discriminate. case_decide.
  - intros [= <- <-]. split; [apply grows_refl | by right].
  - intros Hc%copy_sound. unfold buffer_from. tauto.
Qed.

Lemma buffer_from_trans σ σ1 x y r :
  grows σ σ1 -> buffer_from σ x y -> buffer_from σ1 y r -> buffer_from σ x r.
Proof.
  unfold buffer_from. intros Hg [Hy|Hy] [Hr|Hr].
  - left. by eapply grows_fresh.
  - left. unfold fresh_buffer in *. by rewrite Hr.
  - left. by eapply grows_fresh.
  - right. congruence.
Qed.

Lemma reshaped_inv (s : list nat) shp σ s' σ' :
  reshaped s shp σ = Return (s', σ') -> σ' = σ.
Proof.
  unfold reshaped. destruct (reshape_shape s shp); [|discriminate].
  by intros [= _ <-].
Qed.

Lemma asarray_copy_sound x o (f : value -> list nat) σ r σ' :
  (y ← asarray x; a ← read y; alloc o (f y) (a_data a)) σ = Return (r, σ') ->
  grows σ σ' /\ buffer_from σ x r.
Proof.
  intros (y & σ1 & [Hg _]%asarray_sound & [Hg' Hf]%copy_sound)%bind_inv.
  split; [by eapply grows_trans|].
  left. by eapply grows_fresh.
Qed.

Lemma lib1_sound f x σ r σ' :
  lib1 f x σ = Return (r, σ') -> grows σ σ' /\ buffer_from σ x r.
Proof.
  destruct f; cbn [lib1].
  - apply tensor_to_sound.
  - destruct (obj x); try discriminate. apply alias_sound.
  - destruct (obj x); try discriminate. apply tensor_to_sound.
  - apply numpy_of_tensor_sound.
  - intros Hc%copy_sound. unfold buffer_from. tauto.
  - apply (asarray_copy_sound x ndarray shape).
  - apply (asarray_copy_sound x DeviceArray shape).
  - destruct (obj x) eqn:Hx; try discriminate.
    + intros (s & σ1 & ->%reshaped_inv & Ha)%bind_inv.
      destruct (reshape_view x shp);
        [by apply alias_sound in Ha | apply copy_sound in Ha].
      unfold buffer_from. tauto.
    + intros (s & σ1 & ->%reshaped_inv & Hc%copy_sound)%bind_inv.
      unfold buffer_from. tauto.
    + intros (s & σ1 & ->%reshaped_inv & Ha)%bind_inv.
      destruct (reshape_view x shp);
        [by apply alias_sound in Ha | apply copy_sound in Ha].
      unfold buffer_from. tauto.
  - destruct (obj x); try discriminate. apply alias_sound.
  - apply (asarray_copy_sound x DeviceArray (λ y, squeeze_shape (shape y))).
  - intros (y & σ1 & [Hg Hy]%asarray_sound & Hs)%bind_inv.
    case_decide.
    + by injection Hs as <- <-.
    + apply alias_sound in Hs as [Hg' Hr].
      split; [by eapply grows_trans | by eapply buffer_from_trans].
Qed.

Lemma operand_sound b x σ a σ' :
  operand b x σ = Return (a, σ') -> grows σ σ'.
Proof.
  destruct b; cbn [operand].
  - by intros [-> _]%read_inv.
  - by intros [-> _]%read_inv.
  - intros (y & σ1 & [Hg _]%asarray_sound
              & (a0 & σ2 & [-> _]%read_inv & [= _ <-])%bind_inv)%bind_inv.
    exact Hg.
Qed.

Lemma result_sound (k : py (array elt)) σ r σ' :
  result k σ = Return (r, σ') -> grows σ σ' /\ fresh_buffer σ r.
Proof.
  unfold result. intros (a & σ1 & Hl & Ha)%bind_inv.
  unfold lift in Hl. destruct k; [|discriminate].
  injection Hl as <- <-. by apply alloc_sound in Ha.
Qed.

Lemma lib2_sound f x y σ r σ' :
  lib2 f x y σ = Return (r, σ') -> grows σ σ' /\ fresh_buffer σ r.
Proof.
  unfold lib2.
  intros (a & σ1 & Ha%operand_sound
            & (b & σ2 & Hb%operand_sound
                 & [Hg Hf]%result_sound)%bind_inv)%bind_inv.
  pose proof (grows_trans _ _ _ Ha Hb) as H12. split.
  - by eapply grows_trans.
  - by eapply grows_fresh.
Qed.

Lemma lib3_sound f c x y σ r σ' :
  lib3 f c x y σ = Return (r, σ') -> grows σ σ' /\ fresh_buffer σ r.
Proof.
  unfold lib3.
  intros (k & σ0 & Hk%operand_sound
            & (a & σ1 & Ha%operand_sound
                 & (b & σ2 & Hb%operand_sound
                      & [Hg Hf]%result_sound)%bind_inv)%bind_inv)%bind_inv.
  pose proof (grows_trans _ _ _ (grows_trans _ _ _ Hk Ha) Hb) as H12. split.
  - by eapply grows_trans.
  - by eapply grows_fresh.
Qed.

(** Running an expression only adds buffers, and the buffer of its value
    is new or is the buffer of an object the expression mentions. *)
Lemma eval_sound e : forall σ r σ',
  eval e σ = Return (r, σ') ->
  grows σ σ' /\
  (fresh_buffer σ r \/ exists x, x ∈ objs e /\ data_ptr r = data_ptr x).
Proof.
  induction e as [x|f a IHa|f a IHa b IHb|f c IHc a IHa b IHb];
    intros σ r σ'; cbn [eval objs].
  - intros [= <- <-]. split; [apply grows_refl|].
    right. exists x. split; [set_solver | reflexivity].
  - intros (x & σ1 & [Hg Hx]%IHa & [Hg' Hr]%lib1_sound)%bind_inv.
    split; [by eapply grows_trans|].
    destruct Hx as [Hx|(z & Hz & Hx)].
    + left. destruct (buffer_from_trans σ σ1 x x r Hg (or_introl Hx) Hr) as [?|?];
        [done | unfold fresh_buffer in *; congruence].
    + destruct Hr as [Hr|Hr].
      * left. by eapply grows_fresh.
      * right. exists z. split; [done | congruence].
  - intros (x & σ1 & [Hg1 _]%IHa
              & (y & σ2 & [Hg2 _]%IHb & [Hg3 Hf]%lib2_sound)%bind_inv)%bind_inv.
    pose proof (grows_trans _ _ _ Hg1 Hg2) as H12. split.
    + by eapply grows_trans.
    + left. by eapply grows_fresh.
  - intros (k & σ0 & [Hg0 _]%IHc
              & (x & σ1 & [Hg1 _]%IHa
                   & (y & σ2 & [Hg2 _]%IHb
                        & [Hg3 Hf]%lib3_sound)%bind_inv)%bind_inv)%bind_inv.
    pose proof (grows_trans _ _ _ (grows_trans _ _ _ Hg0 Hg1) Hg2) as H12.
    split.
    + by eapply grows_trans.
    + left. by eapply grows_fresh.
Qed.

Lemma objs_operands (o : operation) :
  match o with
  | call_get_datatype _ => True
  | call_datatype_convert x a => objs (datatype_convert_call x a) = [x]
  | call_reshape x shp => objs (reshape x shp) = [x]
  | call_hstack x y => objs (hstack x y) = [x; y]
  | call_maximum x y => objs (maximum x y) = [x; y]
  | call_squeeze x => objs (squeeze x) = [x]
  | call_where c x y => objs (where_ c x y) = [c; x; y]
  end.
Proof.
  destruct o as [x|x [|[[]|]]|x shp|x y|x y|x|c x y]; try exact I;
    unfold datatype_convert_call, datatype_convert, reshape, hstack, maximum,
      squeeze, where_; cbn;
    repeat match goal with
           | |- context [if ?b then _ else _] => destruct b
           end; reflexivity.
Qed.

(** A conversion hands back its argument exactly when there is nothing
    to convert: the target is [None], or it is the tag of the argument. *)
Lemma datatype_convert_identity σ x (dt : option DataType) r σ' :
  oid x < next_oid σ ->
  eval (datatype_convert x dt) σ = Return (r, σ') ->
  (r = x <-> dt = None \/ exists A, dt = Some A /\ get_datatype x = Return A).
Proof.
  unfold get_datatype, datatype_convert, torch_is_tensor,
    isinstance_DeviceArray, isinstance_ndarray, device_type_of.
  destruct σ as [n h], x as [i [dv g| | |m] s p], dt as [[]|]; cbn;
    intros Hi H.
  all: unwind.
  all: split;
    [ intros Heq;
      first [ discriminate Heq
            | exfalso; apply (f_equal oid) in Heq; cbn in Heq; lia
            | left; reflexivity
            | right; eexists; split; reflexivity ]
    | first [ intros _; reflexivity
            | intros [Hn|(A & HA & Hc)];
              [ discriminate Hn | injection HA as <-; discriminate Hc ] ] ].
Qed.

Lemma perform_expr e o σ a σ' :
  (r ← eval e; mret (Ref r)) σ = Return (a, σ') ->
  objs e = operands o ->
  grows σ σ' /\
  exists r, a = Ref r /\ eval e σ = Return (r, σ') /\
    (fresh_buffer σ r \/ exists x, x ∈ operands o /\ data_ptr r = data_ptr x).
Proof.
  intros (r & σ1 & He & [= <- <-])%bind_inv Ho.
  destruct (eval_sound _ _ _ _ He) as [Hg Hr]. rewrite Ho in Hr. eauto.
Qed.

(** C8, as the code has it.  A successful call of any of the seven
    operations leaves every buffer of the store with the elements it had.
    Classification returns a tag and changes nothing.  The other
    operations return an object whose buffer is either new or the buffer
    of an operand: the operand itself, or a new object that shares the
    operand's buffer without a copy.  A conversion returns the operand
    itself exactly when the target is [None] or is already the operand's
    tag. *)
Theorem operations_pure σ (o : operation) (a : answer) σ' :
  perform o σ = Return (a, σ') ->
  buffers_kept σ σ' /\
  match a with
  | Tag _ => σ' = σ
  | Ref r =>
    (fresh_buffer σ r \/ exists x, x ∈ operands o /\ data_ptr r = data_ptr x) /\
    (forall x act, o = call_datatype_convert x act -> oid x < next_oid σ ->
       (r = x <->
        bind_datatype act = None \/
        exists A, bind_datatype act = Some A /\ get_datatype x = Return A))
  end.
Proof.
  pose proof (objs_operands o) as Ho.
  destruct o as [x|x act|x shp|x y|x y|x|c x y]; cbn [perform]; intros H.
  - apply bind_inv in H as (d & σ1 & Hl & [= <- <-]).
    unfold lift in Hl. destruct (get_datatype x); [|discriminate].
    injection Hl as <- <-. split; [by intros ? ?|reflexivity].
  - destruct (perform_expr _ (call_datatype_convert x act) _ _ _ H Ho)
      as ([Hg _] & r & -> & He & Hr).
    split; [by apply prefix_kept|]. split; [exact Hr|].
    intros x' act' [= <- <-] Hi.
    by apply (datatype_convert_identity σ x _ r σ').
  - destruct (perform_expr _ (call_reshape x shp) _ _ _ H Ho)
      as ([Hg _] & r & -> & He & Hr).
    split; [by apply prefix_kept|]. split; [exact Hr | discriminate].
  - destruct (perform_expr _ (call_hstack x y) _ _ _ H Ho)
      as ([Hg _] & r & -> & He & Hr).
    split; [by apply prefix_kept|]. split; [exact Hr | discriminate].
  - destruct (perform_expr _ (call_maximum x y) _ _ _ H Ho)
      as ([Hg _] & r & -> & He & Hr).
    split; [by apply prefix_kept|]. split; [exact Hr | discriminate].
  - destruct (perform_expr _ (call_squeeze x) _ _ _ H Ho)
      as ([Hg _] & r & -> & He & Hr).
    split; [by apply prefix_kept|]. split; [exact Hr | discriminate].
  - destruct (perform_expr _ (call_where c x y) _ _ _ H Ho)
      as ([Hg _] & r & -> & He & Hr).
    split; [by apply prefix_kept|]. split; [exact Hr | discriminate].
Qed.
End Purity.

(** * The default target *)

Section Default.
Context {elt : Type} `{K : Kernels elt}.

Lemma get_datatype_NUMPY (x : value) :
  get_datatype x = Return NUMPY -> isinstance_ndarray x = true.
Proof.
  unfold get_datatype, torch_is_tensor, isinstance_DeviceArray,
    isinstance_ndarray, device_type_of.
  destruct (obj x); repeat case_decide; congruence.
Qed.

Lemma datatype_convert_NUMPY_class (x : value) (σ : world elt) r σ' :
  eval (datatype_convert x (Some NUMPY)) σ = Return (r, σ') -> obj r = ndarray.
Proof.
  unfold datatype_convert, torch_is_tensor, isinstance_ndarray.
  destruct σ as [n h], x as [i [dv g| | |m] s p]; cbn; intros Hr; unwind;
    reflexivity.
Qed.

(** C9. The default of the target argument is [DataType.NUMPY], not
    [None]: a call that leaves the target out is a conversion to a host
    array, so its result is an ndarray, and for an argument that is not
    one already it is a new object and not the argument handed back; the
    pass-through branch for [None] is taken only when [None] is passed. *)
Theorem datatype_convert_default (x : value) (a : actual) :
  datatype_default = Some NUMPY /\
  datatype_convert_call x omitted = datatype_convert x (Some NUMPY) /\
  datatype_convert_call x (passed None) = Obj x /\
  (bind_datatype a = None <-> a = passed None) /\
  (isinstance_ndarray x = false -> datatype_convert_call x omitted <> Obj x) /\
  (forall (σ : world elt) r σ',
     eval (datatype_convert_call x omitted) σ = Return (r, σ') ->
     obj r = ndarray /\
     (isinstance_ndarray x = false -> oid x < next_oid σ -> r <> x)).
Proof.
  split; [reflexivity|]. split; [reflexivity|]. split; [reflexivity|].
  split; [|split].
  - split; [|by intros ->].
    destruct a as [|[dt|]]; unfold bind_datatype, datatype_default;
      intros; congruence.
  - unfold datatype_convert_call, datatype_convert, torch_is_tensor,
      isinstance_ndarray.
    destruct x as [i [dv g| | |m] s p]; cbn; intros Hx;
      repeat case_decide; first [discriminate | intuition discriminate].
  - unfold datatype_convert_call, bind_datatype, datatype_default.
    intros σ r σ' H. split; [by eapply datatype_convert_NUMPY_class|].
    intros Hx Hi Heq.
    apply (datatype_convert_identity σ x (Some NUMPY) r σ' Hi H) in Heq
      as [[=]|(A & [= <-] & HA)].
    apply get_datatype_NUMPY in HA. congruence.
Qed.
End Default.

(** * Environment dimensions *)

Section EnvDims.
Implicit Types (σ : dstore) (m : gmap string pyval).

Lemma D_bind_inv {A B} (c : D A) (k : A -> D B) σ b σ' :
  (a ← c; k a) σ = (Return b, σ') ->
  exists a σ1, c σ = (Return a, σ1) /\ k a σ1 = (Return b, σ').
Proof.
  unfold mbind, D_bind. destruct (c σ) as [[a|e] σ1]; [eauto | discriminate].
Qed.

Lemma expression_inv {A} (r : py A) σ a σ' :
  expression r σ = (Return a, σ') -> r = Return a /\ σ' = σ.
Proof. by intros [= -> ->]. Qed.

Lemma setitem_inv d key v σ u σ' :
  setitem d key v σ = (Return u, σ') ->
  exists m, σ !! d = Some m /\ σ' = <[d := <[key := v]> m]> σ.
Proof.
  unfold setitem. destruct (σ !! d) as [m|]; [|discriminate].
  intros [= _ <-]. eauto.
Qed.

Lemma assign_inv d key (e : py pyval) (k : D unit) σ u σ' :
  (v ← expression e; setitem d key v;; k) σ = (Return u, σ') ->
  exists v m, e = Return v /\ σ !! d = Some m /\
    k (<[d := <[key := v]> m]> σ) = (Return u, σ').
Proof.
  intros (v & σ1 & [-> ->]%expression_inv
            & ([] & σ2 & (m & Hm & ->)%setitem_inv & Hk)%D_bind_inv)%D_bind_inv.
  eauto.
Qed.

Lemma assign_dims_inv info e1 e2 e3 e4 σ u σ' :
  assign_dims info e1 e2 e3 e4 σ = (Return u, σ') ->
  exists m a o ag dg,
    e1 = Return a /\ e2 = Return o /\ e3 = Return ag /\ e4 = Return dg /\
    σ !! info = Some m /\ σ' = <[info := with_dims m a o ag dg]> σ.
Proof.
  unfold assign_dims.
  intros (a & m & -> & Hm & H)%assign_inv.
  apply assign_inv in H as (o & m1 & -> & Hm1 & H).
  apply assign_inv in H as (ag & m2 & -> & Hm2 & H).
  apply D_bind_inv in H as (dg & σ1 & [-> ->]%expression_inv & H).
  apply setitem_inv in H as (m3 & Hm3 & ->).
  assert (Hlt : info < length σ) by (by eapply lookup_lt_Some).
  rewrite list_lookup_insert_eq in Hm1 by done.
  rewrite list_lookup_insert_eq in Hm2 by (by rewrite length_insert).
  rewrite list_lookup_insert_eq in Hm3 by (by rewrite !length_insert).
  simplify_eq.
  exists m, a, o, ag, dg. repeat split; try done.
  by rewrite !list_insert_insert_eq.
Qed.

Lemma get_env_dimensions_unfold info is_goalenv env :
  exists e1 e2 e3 e4,
    get_env_dimensions info is_goalenv env =
      (dims ← new_dict; assign_dims info e1 e2 e3 e4;; mret dims) /\
    (forall v, e1 = Return v -> exists n, v = PyInt n) /\
    (forall v, e2 = Return v -> exists n, v = PyInt n) /\
    (forall v, e3 = Return v ->
       if is_goalenv then exists n, v = PyInt n else v = PyNone) /\
    (forall v, e4 = Return v ->
       if is_goalenv then exists n, v = PyInt n else v = PyNone).
Proof.
  assert (Hlast : forall s v, shape_last s = Return v -> exists n, v = PyInt n).
  { intros [shp|sp] v; cbn; [|discriminate].
    destruct (last shp); [|discriminate]. intros [= <-]. eauto. }
  assert (Hattr : forall (a : py space) v,
            (s ← a; shape_last s) = Return v -> exists n, v = PyInt n).
  { intros [s|e] v; cbn; [apply Hlast | discriminate]. }
  assert (Hitem : forall (a : py space) key v,
            (s ← a; o ← getitem s key; shape_last o) = Return v ->
            exists n, v = PyInt n).
  { intros [s|e] key v; cbn; [|discriminate]. apply Hattr. }
  unfold get_env_dimensions.
  destruct (match is_vector_env env with Some b => b | None => false end);
    eexists _, _, _, _; (split; [reflexivity|]);
    destruct is_goalenv; repeat split; intros v Hv;
    first [ by injection Hv as <- | by eapply Hitem | by eapply Hattr ].
Qed.

(** C10. Whenever [get_env_dimensions] returns, on a dictionary [info]
    of the caller, what it returns is a new dictionary that is empty: the
    local [dims] is never written.  The four dimensions are written into
    the caller's [info], in place, under the keys "action_dim",
    "observation_dim", "achieved_goal_dim" and "desired_goal_dim" (the
    two goal dimensions being [None] unless the environment is a goal
    environment); every other dictionary is left as it was. *)
Theorem get_env_dimensions_returns_empty
    σ (info : nat) (is_goalenv : bool) (env : environment) m (dims : nat) σ' :
  σ !! info = Some m ->
  get_env_dimensions info is_goalenv env σ = (Return dims, σ') ->
  σ !! dims = None /\ σ' !! dims = Some ∅ /\ dims <> info /\
  (exists a o ag dg,
     σ' !! info = Some (with_dims m (PyInt a) (PyInt o) ag dg) /\
     (if is_goalenv then exists n n', ag = PyInt n /\ dg = PyInt n'
      else ag = PyNone /\ dg = PyNone)) /\
  (forall l, l <> info -> l <> dims -> σ' !! l = σ !! l).
Proof.
  intros Hm.
  destruct (get_env_dimensions_unfold info is_goalenv env)
    as (e1 & e2 & e3 & e4 & -> & H1 & H2 & H3 & H4).
  intros (d & σ1 & [= <- <-]
            & ([] & σ2 & Ha & [= <- <-])%D_bind_inv)%D_bind_inv.
  apply assign_dims_inv in Ha
    as (m' & a & o & ag & dg & -> & -> & -> & -> & Hm' & ->).
  assert (Hlt : info < length σ) by (by eapply lookup_lt_Some).
  rewrite lookup_app_l in Hm' by done. simplify_eq.
  destruct (H1 _ eq_refl) as [na ->], (H2 _ eq_refl) as [no ->].
  split; [by apply lookup_ge_None_2|].
  split.
  { rewrite list_lookup_insert_ne by lia. apply heap_new. }
  split; [lia|]. split.
  - exists na, no, ag, dg. split.
    + apply list_lookup_insert_eq. rewrite length_app. lia.
    + specialize (H3 _ eq_refl). specialize (H4 _ eq_refl).
      destruct is_goalenv; [|done].
      destruct H3 as [n ->], H4 as [n' ->]. eauto.
  - intros l Hl Hd. rewrite list_lookup_insert_ne by done.
    destruct (decide (l < length σ)).
    + by rewrite lookup_app_l.
    + rewrite (lookup_ge_None_2 σ) by lia.
      apply lookup_ge_None_2. rewrite length_app. cbn. lia.
Qed.
End EnvDims.

(** * The theorems at concrete inputs *)

(** C2 as stated fails twice.  [maximum] and [hstack] of a GPU tensor
    and a host array are sent to numpy, neither pair test holding, and
    numpy cannot take the GPU tensor as a host array, so the call raises.
    And where the mixed call succeeds its result need not be a host
    array: [maximum] of a CPU tensor and a host array, sent to numpy as
    well, comes back as a CPU tensor. *)
Lemma mixed_backends_can_fail :
  both_tensors gpu_vector host_array = false /\
  both_DeviceArrays gpu_vector host_array = false /\
  object_of store0 gpu_vector /\ object_of store0 host_array /\
  shape gpu_vector = shape host_array /\
  eval (K := Z_kernels) (maximum gpu_vector host_array) store0
    = Raise (TypeError cuda_message) /\
  eval (K := Z_kernels) (hstack gpu_vector host_array) store0
    = Raise (TypeError cuda_message) /\
  (¬ exists r σ',
      eval (K := Z_kernels) (maximum gpu_vector host_array) store0
        = Return (r, σ')) /\
  called_backend (maximum cpu_tensor host_array) = Some Numpy /\
  exists r σ',
    eval (K := Z_kernels) (maximum cpu_tensor host_array) store0
      = Return (r, σ') /\
    get_datatype r = Return TORCH_CPU /\
    heap σ' !! data_ptr r = Some [4; 5; 6]%Z.
Proof.
  repeat split; try (cbn; lia).
  - intros (r & σ' & H). vm_compute in H. discriminate H.
  - eexists _, _. repeat split.
Qed.

(** [maximum] of a CPU tensor and a host array goes to numpy, which
    reads the tensor as a host array and here gives a CPU tensor back;
    with the tensor on a GPU the call raises. *)
Lemma dual_operand_dispatch_witness :
  (exists σ1, buffers_kept store0 σ1 /\
     eval (K := Z_kernels) (maximum cpu_tensor host_array) store0 =
       result (kernel2 np_maximum (Array (Tensor "cpu" false) [3] [1; 5; 2]%Z)
                                  (Array ndarray [3] [4; 0; 6]%Z)) σ1 /\
     exists r σ',
       eval (K := Z_kernels) (maximum cpu_tensor host_array) store0
         = Return (r, σ') /\
       obj r = Tensor "cpu" false) /\
  (exists err,
     eval (K := Z_kernels) (maximum gpu_vector host_array) store0 = Raise err).
Proof.
  destruct (dual_operand_dispatch (K := Z_kernels)
              plain_list cpu_tensor host_array) as [_ Hcpu].
  destruct (dual_operand_dispatch (K := Z_kernels)
              plain_list gpu_vector host_array) as [_ Hgpu].
  split.
  - destruct (Hcpu eq_refl eq_refl store0
                [7; 8; 9]%Z [1; 5; 2]%Z [4; 0; 6]%Z eq_refl eq_refl eq_refl)
      as [Hok _].
    destruct (Hok (conj eq_refl eq_refl) I) as (_ & (σ1 & Hkept & Hmax) & _).
    exists σ1. split; [exact Hkept|]. split; [exact Hmax|].
    eexists _, _. split; reflexivity.
  - destruct (Hgpu eq_refl eq_refl store0
                [7; 8; 9]%Z [9; 1; 4]%Z [4; 0; 6]%Z eq_refl eq_refl eq_refl)
      as [_ Hfail].
    destruct Hfail as (_ & Hmax & _); [|exact Hmax].
    left. intros [Hcpu' _]. discriminate Hcpu'.
Defined.

Lemma get_datatype_datatype_convert_witness :
  exists r σ',
    eval (K := Z_kernels) (datatype_convert gpu_tensor (Some JAX)) store0
      = Return (r, σ') /\
    get_datatype r = Return JAX.
Proof.
  apply (get_datatype_datatype_convert (K := Z_kernels)
           store0 gpu_tensor TORCH_CUDA JAX
           [1; 2; 3; 4; 5; 6; 7; 8; 9; 10; 11; 12]%Z);
    reflexivity.
Defined.

(** The scenario of the specification: a GPU tensor of shape (4,3) with
    the values 1 to 12. *)
Lemma datatype_convert_NUMPY_witness :
  exists r σ',
    eval (K := Z_kernels) (datatype_convert gpu_tensor (Some NUMPY)) store0
      = Return (r, σ') /\
    obj r = ndarray /\ shape r = [4; 3] /\
    heap σ' !! data_ptr r = Some [1; 2; 3; 4; 5; 6; 7; 8; 9; 10; 11; 12]%Z /\
    (device_type_of gpu_tensor <> "cpu" -> fresh_buffer store0 r).
Proof.
  destruct (datatype_convert_NUMPY (K := Z_kernels) gpu_tensor) as [Ht _].
  destruct (Ht eq_refl) as [_ Hrun].
  exact (Hrun store0 [1; 2; 3; 4; 5; 6; 7; 8; 9; 10; 11; 12]%Z eq_refl).
Defined.

Example gpu_tensor_to_host_array :
  eval (K := Z_kernels) (datatype_convert gpu_tensor (Some NUMPY)) store0 =
    Return (Value 9 ndarray [4; 3] 7,
            World 10 (heap store0 ++ [[1; 2; 3; 4; 5; 6; 7; 8; 9; 10; 11; 12]%Z])).
Proof. reflexivity. Qed.

Lemma datatype_convert_same_tag_witness :
  eval (K := Z_kernels) (datatype_convert gpu_tensor (Some TORCH_CUDA)) store0
    = Return (gpu_tensor, store0).
Proof.
  apply (datatype_convert_same_tag (K := Z_kernels) store0 gpu_tensor TORCH_CUDA).
  reflexivity.
Defined.

Lemma round_trip_through_NUMPY_witness :
  exists w σ1 r σ2,
    eval (K := Z_kernels) (datatype_convert jax_array (Some NUMPY)) store0
      = Return (w, σ1) /\
    eval (K := Z_kernels) (datatype_convert w (Some JAX)) σ1 = Return (r, σ2) /\
    get_datatype r = Return JAX /\
    shape r = shape jax_array /\
    heap σ2 !! data_ptr r = Some [3; 3; 3]%Z.
Proof.
  apply (round_trip_through_NUMPY (K := Z_kernels) store0 jax_array JAX);
    reflexivity.
Defined.

(** C8 as stated fails: converting a CPU tensor to a host array returns a
    new object, not the tensor, and its buffer is the tensor's buffer, not
    a new one. *)
Lemma shared_buffer_not_fresh_nor_same :
  ¬ fresh_or_same (K := Z_kernels) store0
      (call_datatype_convert cpu_tensor (passed (Some NUMPY))).
Proof.
  intros H.
  destruct (H (Value 8 ndarray [3] 1) (World 9 (heap store0)) eq_refl)
    as [_ [Hin|Hfresh]].
  - apply list_elem_of_singleton in Hin. discriminate Hin.
  - vm_compute in Hfresh. discriminate Hfresh.
Qed.

Example reshape_is_a_view :
  perform (K := Z_kernels) (call_reshape host_array [1; 3]%Z) store0 =
    Return (Ref (Value 7 ndarray [1; 3] (data_ptr host_array)),
            World 8 (heap store0)).
Proof. reflexivity. Qed.

Lemma operations_pure_witness :
  buffers_kept store0 (World 9 (heap store0)) /\
  (fresh_buffer store0 (Value 8 ndarray [3] 1) \/
   exists x, x ∈ [cpu_tensor] /\ data_ptr (Value 8 ndarray [3] 1) = data_ptr x).
Proof.
  destruct (operations_pure (K := Z_kernels) store0
              (call_datatype_convert cpu_tensor (passed (Some NUMPY)))
              (Ref (Value 8 ndarray [3] 1)) (World 9 (heap store0)) eq_refl)
    as [Hkept [Hfrom _]].
  exact (conj Hkept Hfrom).
Defined.

Lemma get_env_dimensions_returns_empty_witness :
  exists σ',
    get_env_dimensions 0 true goal_vec_env caller_store = (Return 1, σ') /\
    σ' !! 1 = Some ∅ /\
    exists a o ag dg,
      σ' !! 0 = Some (with_dims {[ "env_name" := PyStr "HalfCheetah-v4" ]}
                        (PyInt a) (PyInt o) ag dg).
Proof.
  eexists. split; [reflexivity|].
  destruct (get_env_dimensions_returns_empty caller_store 0 true goal_vec_env
              {[ "env_name" := PyStr "HalfCheetah-v4" ]} 1 _ eq_refl eq_refl)
    as (_ & Hempty & _ & (a & o & ag & dg & Hinfo & _) & _).
  split; [exact Hempty|]. exists a, o, ag, dg. exact Hinfo.
Defined.

Example get_env_dimensions_box_env :
  let '(r, σ') := get_env_dimensions 0 false box_env caller_store in
  r = Return 1 /\
  σ' !! 1 = Some ∅ /\
  (σ' !! 0) ≫= (.!! "action_dim") = Some (PyInt 2) /\
  (σ' !! 0) ≫= (.!! "observation_dim") = Some (PyInt 17) /\
  (σ' !! 0) ≫= (.!! "achieved_goal_dim") = Some PyNone /\
  (σ' !! 0) ≫= (.!! "desired_goal_dim") = Some PyNone /\
  (σ' !! 0) ≫= (.!! "env_name") = Some (PyStr "HalfCheetah-v4").
Proof. vm_compute. repeat split. Qed.

(** An environment that is not accepted: a goal environment is asked for,
    but the observation space is a plain box.  The call raises after
    "action_dim" has been written into [info]. *)
Example get_env_dimensions_partial :
  let '(r, σ') := get_env_dimensions 0 true box_env caller_store in
  r = Raise (TypeError "'Box' object is not subscriptable") /\
  (σ' !! 0) ≫= (.!! "action_dim") = Some (PyInt 2) /\
  (σ' !! 0) ≫= (.!! "observation_dim") = None.
Proof. vm_compute. repeat split. Qed.

(** * Further properties of the conversions *)

Section ConversionOfAnything.
Context {elt : Type} `{K : Kernels elt}.

Lemma datatype_convert_runs (σ : world elt) (x : value) (T : DataType)
    (d : list elt) :
  heap σ !! data_ptr x = Some d ->
  exists r σ',
    eval (datatype_convert x (Some T)) σ = Return (r, σ') /\
    get_datatype r = Return T /\
    shape r = shape x /\
    heap σ' !! data_ptr r = Some d /\
    (exists l, heap σ' = heap σ ++ l) /\
    eval (datatype_convert r (Some T)) σ' = Return (r, σ').
Proof.
  intros Hd. destruct σ as [n h], x as [i [dv g| | |m] s p], T;
    cbn [data_ptr heap] in Hd;
    unfold datatype_convert, torch_is_tensor, isinstance_DeviceArray,
      isinstance_ndarray; cbn [obj]; cases; go.
  all: eexists _, _; split; [reflexivity|].
  all: split; [pick; reflexivity|].
  all: split; [reflexivity|].
  all: cbn [data_ptr heap shape].
  all: split; [first [assumption | apply heap_new]|].
  all: split; [rewrite <- ?app_assoc; first [by exists []; rewrite app_nil_r | by eexists]|].
  all: pick; go; reflexivity.
Qed.

(** X1. Every object that has a buffer converts to every tag, also an
    object that [get_datatype] rejects (a list, a tensor on another kind
    of device): the conversion returns, its result has the tag and the
    shape asked for and as many elements as the argument, and the
    buffers of the store are kept.  Nothing is said of the elements
    themselves, which the target library may store in another element
    type. *)
Theorem datatype_convert_any_object (σ : world elt) (x : value)
    (T : DataType) (d : list elt) :
  heap σ !! data_ptr x = Some d ->
  exists r σ',
    eval (datatype_convert x (Some T)) σ = Return (r, σ') /\
    get_datatype r = Return T /\
    shape r = shape x /\
    (exists d', heap σ' !! data_ptr r = Some d' /\ length d' = length d) /\
    buffers_kept σ σ'.
Proof.
  intros Hd.
  destruct (datatype_convert_runs σ x T d Hd)
    as (r & σ' & He & Ht & Hs & Hr & [l Hl] & _).
  exists r, σ'. repeat split; try done.
  - by exists d.
  - intros p e Hp. rewrite Hl. by apply heap_old.
Qed.

(** X2. Converting twice to the same tag is converting once: the second call
    returns the object the first one made and allocates nothing. *)
Theorem datatype_convert_twice (σ : world elt) (x : value)
    (T : DataType) (d : list elt) :
  heap σ !! data_ptr x = Some d ->
  exists r σ',
    eval (datatype_convert x (Some T)) σ = Return (r, σ') /\
    eval (datatype_convert r (Some T)) σ' = Return (r, σ').
Proof.
  intros Hd.
  destruct (datatype_convert_runs σ x T d Hd)
    as (r & σ' & He & _ & _ & _ & _ & He').
  eauto.
Qed.

(** X3. When a conversion copies.  The result lives in the buffer of the
    argument in two cases only: the argument already has the target tag,
    or it is a CPU tensor and the target is [NUMPY].  In every other case
    the elements are copied into a new buffer. *)
Theorem datatype_convert_zero_copy (σ : world elt) (x : value)
    (T : DataType) (d : list elt) r σ' :
  heap σ !! data_ptr x = Some d ->
  eval (datatype_convert x (Some T)) σ = Return (r, σ') ->
  (data_ptr r = data_ptr x <->
     get_datatype x = Return T \/
     (T = NUMPY /\ exists g, obj x = Tensor "cpu" g)) /\
  (data_ptr r <> data_ptr x -> fresh_buffer σ r).
Proof.
  intros Hd He.
  assert (Hlt : data_ptr x < length (heap σ)) by (by eapply lookup_lt_Some).
  destruct σ as [n h], x as [i [dv g| | |m] s p], T;
    cbn [data_ptr heap] in *;
    unfold datatype_convert, torch_is_tensor, isinstance_DeviceArray,
      isinstance_ndarray in He; cbn [obj] in He; unwind.
  all: unfold fresh_buffer; pick; cbn [data_ptr heap obj].
  all: rewrite ?length_app; cbn [length].
  all: split;
    [ split;
      [ intros Heq;
        first [ exfalso; lia
              | left; reflexivity
              | right; split; [reflexivity | eexists; reflexivity] ]
      | first [ intros _; reflexivity
              | intros [Heq|[Heq [g0 Hg]]]; exfalso;
                first [discriminate | congruence] ] ]
    | intros Hne; first [ congruence | apply lookup_ge_None_2; lia ] ].
Qed.
End ConversionOfAnything.

Section TorchTargets.
Context {elt : Type} `{K : Kernels elt}.

(** X4. Conversions to the torch tags.  The result is a tensor on the device
    of the tag; it tracks gradients exactly when the argument is a tensor
    that does, and anything that is not a tensor comes out of tracking;
    unless the argument is already a tensor on that device, the elements
    are copied into a new buffer. *)
Theorem datatype_convert_to_torch (σ : world elt) (x : value)
    (T : DataType) (device : string) (d : list elt) :
  heap σ !! data_ptr x = Some d ->
  (T = TORCH_CPU /\ device = "cpu") \/ (T = TORCH_CUDA /\ device = "cuda") ->
  exists r σ',
    eval (datatype_convert x (Some T)) σ = Return (r, σ') /\
    obj r = Tensor device
              (match obj x with Tensor _ g => g | _ => false end) /\
    ((exists g, obj x = Tensor device g) -> r = x /\ σ' = σ) /\
    ((forall g, obj x <> Tensor device g) -> fresh_buffer σ r).
Proof.
  intros Hd HT. unfold fresh_buffer.
  destruct σ as [n h], x as [i [dv g| | |m] s p];
    cbn [data_ptr heap] in Hd;
    destruct HT as [[-> ->]|[-> ->]];
    unfold datatype_convert, torch_is_tensor, isinstance_DeviceArray,
      isinstance_ndarray; cbn [obj]; cases; go.
  all: eexists _, _; split; [reflexivity|]; cbn [obj data_ptr heap].
  all: split; [reflexivity|].
  all: split;
    [ first [ intros _; split; reflexivity
            | intros [g0 Hg]; exfalso; congruence ]
    | first [ intros Hn; exfalso; by eapply Hn
            | intros _; apply lookup_ge_None_2; rewrite ?length_app;
              cbn [length]; lia ] ].
Qed.
End TorchTargets.

(** * Further properties of [reshape] and [squeeze] *)

Section SingleOperand.
Context {elt : Type} `{K : Kernels elt}.

Ltac shaped Hr :=
  repeat (progress go || (unfold reshaped; rewrite Hr)).

Lemma reshape_runs (σ : world elt) (x : value) (shp : list Z) (d : list elt) :
  heap σ !! data_ptr x = Some d ->
  match reshape_shape (shape x) shp with
  | Some s' =>
    exists r σ',
      eval (reshape x shp) σ = Return (r, σ') /\
      shape r = s' /\ obj r = keep_class (obj x) /\
      heap σ' !! data_ptr r = Some d /\
      (exists l, heap σ' = heap σ ++ l) /\
      (data_ptr r = data_ptr x \/ fresh_buffer σ r) /\
      (forall n, obj x = other n -> fresh_buffer σ r)
  | None => exists err, eval (reshape x shp) σ = Raise err
  end.
Proof.
  intros Hd. unfold fresh_buffer.
  destruct σ as [n h], x as [i [dv g| | |m] s p];
    cbn [data_ptr heap shape] in *;
    unfold reshape, torch_is_tensor, isinstance_DeviceArray,
      isinstance_ndarray; cbn [obj orb];
    destruct (reshape_shape s shp) as [s'|] eqn:Hr; shaped Hr; eauto.
  all: try match goal with
           | |- context [reshape_view ?v ?z] => destruct (reshape_view v z)
           end; shaped Hr.
  all: eexists _, _; split; [reflexivity|]; cbn [obj data_ptr heap shape].
  all: split; [reflexivity|]. all: split; [reflexivity|].
  all: split; [first [assumption | apply heap_new | by apply heap_old]|].
  all: split;
    [rewrite <- ?app_assoc; first [by exists []; rewrite app_nil_r | by eexists]|].
  all: split;
    [ first [ by left
            | right; apply lookup_ge_None_2; rewrite ?length_app;
              cbn [length]; lia ]
    | first [ by intros ? [=]
            | intros _ _; apply lookup_ge_None_2; rewrite ?length_app;
              cbn [length]; lia ] ].
Qed.

Lemma squeeze_runs (σ : world elt) (x : value) (d : list elt) :
  heap σ !! data_ptr x = Some d ->
  exists r σ',
    eval (squeeze x) σ = Return (r, σ') /\
    shape r = squeeze_shape (shape x) /\ obj r = keep_class (obj x) /\
    heap σ' !! data_ptr r = Some d /\
    (exists l, heap σ' = heap σ ++ l) /\
    (torch_is_tensor x || isinstance_ndarray x = true ->
     data_ptr r = data_ptr x /\ heap σ' = heap σ).
Proof.
  intros Hd. destruct σ as [n h], x as [i [dv g| | |m] s p];
    cbn [data_ptr heap shape] in *;
    unfold squeeze, torch_is_tensor, isinstance_DeviceArray,
      isinstance_ndarray; cbn [obj orb]; go.
  all: eexists _, _; split; [reflexivity|]; cbn [obj data_ptr heap shape].
  all: split; [first [reflexivity | by symmetry]|].
  all: split; [reflexivity|].
  all: split; [first [assumption | apply heap_new | by apply heap_old]|].
  all: split;
    [rewrite <- ?app_assoc; first [by exists []; rewrite app_nil_r | by eexists]|].
  all: first [by intros _ | intros [=]].
Qed.

Lemma prefix_buffers_kept (σ σ' : world elt) :
  (exists l, heap σ' = heap σ ++ l) -> buffers_kept σ σ'.
Proof. intros [l Hl] p e Hp. rewrite Hl. by apply heap_old. Qed.

(** X5. What [reshape] returns.  An array is reshaped by its own method:
    the result has the class of the argument (a tensor stays on its
    device and keeps its gradient flag), a shape the library accepts for
    the argument, and the elements of the argument; it lives in the
    buffer of the argument or in a new one, as the library gives a view
    or a copy.  Any other object is first copied into a host array: the
    result is an ndarray in a new buffer.  In no case is an existing
    buffer changed. *)
Theorem reshape_returns (σ : world elt) (x : value) (shp : list Z)
    (d : list elt) r σ' :
  heap σ !! data_ptr x = Some d ->
  eval (reshape x shp) σ = Return (r, σ') ->
  reshape_shape (shape x) shp = Some (shape r) /\
  obj r = keep_class (obj x) /\
  heap σ' !! data_ptr r = Some d /\
  buffers_kept σ σ' /\
  (data_ptr r = data_ptr x \/ fresh_buffer σ r) /\
  (forall n, obj x = other n -> fresh_buffer σ r).
Proof.
  intros Hd He. pose proof (reshape_runs σ x shp d Hd) as Hrun.
  destruct (reshape_shape (shape x) shp) as [s'|].
  - destruct Hrun as (r0 & σ0 & He0 & Hs & Ho & Hr & Hl & Hb & Hf).
    rewrite He in He0. injection He0 as <- <-.
    split; [by rewrite Hs|]. split; [done|]. split; [done|].
    split; [by apply prefix_buffers_kept|]. by split.
  - destruct Hrun as [err He0]. congruence.
Qed.

(** X6. [squeeze] never fails on an object with a buffer, whatever its class,
    device or gradient flag.  The result has the elements of the argument
    and no dimension of length one; a tensor or an ndarray is squeezed as
    a view on its own buffer. *)
Theorem squeeze_returns (σ : world elt) (x : value) (d : list elt) :
  heap σ !! data_ptr x = Some d ->
  exists r σ',
    eval (squeeze x) σ = Return (r, σ') /\
    shape r = squeeze_shape (shape x) /\ (1 ∉ shape r) /\
    heap σ' !! data_ptr r = Some d /\
    buffers_kept σ σ' /\
    (torch_is_tensor x || isinstance_ndarray x = true ->
     data_ptr r = data_ptr x /\ heap σ' = heap σ).
Proof.
  intros Hd.
  destruct (squeeze_runs σ x d Hd) as (r & σ' & He & Hs & Ho & Hr & Hl & Hv).
  exists r, σ'. repeat split; try done.
  - rewrite Hs. unfold squeeze_shape. intros Hin%list_elem_of_filter. tauto.
  - by apply prefix_buffers_kept.
  - by apply Hv.
  - by apply Hv.
Qed.

Lemma get_datatype_obj (x r : value) :
  obj r = obj x -> get_datatype r = get_datatype x.
Proof.
  unfold get_datatype, torch_is_tensor, isinstance_DeviceArray,
    isinstance_ndarray, device_type_of, UnrecognizedTypeError, type_repr.
  by intros ->.
Qed.

Lemma single_operand_class (σ : world elt) (x : value) (shp : list Z)
    (d : list elt) (e : expr) r σ' :
  heap σ !! data_ptr x = Some d ->
  e = reshape x shp \/ e = squeeze x ->
  eval e σ = Return (r, σ') ->
  obj r = keep_class (obj x).
Proof.
  intros Hd [-> | ->] He.
  - pose proof (reshape_runs σ x shp d Hd) as Hrun.
    destruct (reshape_shape (shape x) shp).
    + destruct Hrun as (r0 & σ0 & He0 & _ & Ho & _). congruence.
    + destruct Hrun as [err He0]. congruence.
  - destruct (squeeze_runs σ x d Hd) as (r0 & σ0 & He0 & _ & Ho & _).
    congruence.
Qed.

(** X7. [reshape] and [squeeze] stay in the backend of their argument: what
    either returns is classified as the argument is, and an argument of
    no array class (a list, a number) comes back as a host array. *)
Theorem single_operand_keeps_tag (σ : world elt) (x : value) (shp : list Z)
    (d : list elt) (e : expr) r σ' :
  heap σ !! data_ptr x = Some d ->
  e = reshape x shp \/ e = squeeze x ->
  eval e σ = Return (r, σ') ->
  ((forall n, obj x <> other n) -> get_datatype r = get_datatype x) /\
  (forall n, obj x = other n -> get_datatype r = Return NUMPY).
Proof.
  intros Hd He Hrun.
  pose proof (single_operand_class σ x shp d e r σ' Hd He Hrun) as Ho.
  split.
  - intros Hn. apply get_datatype_obj. rewrite Ho.
    destruct (obj x); try reflexivity. by destruct (Hn type_name).
  - intros n Hx. rewrite Hx in Ho.
    unfold get_datatype, torch_is_tensor, isinstance_DeviceArray,
      isinstance_ndarray. by rewrite Ho.
Qed.

Lemma squeeze_shape_idemp (s : list nat) :
  squeeze_shape (squeeze_shape s) = squeeze_shape s.
Proof.
  unfold squeeze_shape. induction s as [|n s IH]; [reflexivity|].
  rewrite filter_cons. case_decide; [|exact IH].
  rewrite filter_cons. rewrite decide_True by done. by rewrite IH.
Qed.

(** X8. Squeezing twice changes nothing more: the second [squeeze] returns a
    value with the class, the shape and the elements of the first. *)
Theorem squeeze_twice (σ : world elt) (x : value) (d : list elt) :
  heap σ !! data_ptr x = Some d ->
  exists r σ1 r2 σ2,
    eval (squeeze x) σ = Return (r, σ1) /\
    eval (squeeze r) σ1 = Return (r2, σ2) /\
    obj r2 = obj r /\ shape r2 = shape r /\
    heap σ2 !! data_ptr r2 = Some d.
Proof.
  intros Hd.
  destruct (squeeze_runs σ x d Hd) as (r & σ1 & He & Hs & Ho & Hr & _).
  destruct (squeeze_runs σ1 r d Hr) as (r2 & σ2 & He2 & Hs2 & Ho2 & Hr2 & _).
  exists r, σ1, r2, σ2. repeat split; try done.
  - rewrite Ho2, Ho. by destruct (obj x).
  - by rewrite Hs2, Hs, squeeze_shape_idemp.
Qed.
End SingleOperand.

(** * Further properties of the dual-operand functions *)

Section DualOperand.
Context {elt : Type} `{K : Kernels elt}.

(** X9. The backend of a dual-operand call depends on the classes of [x] and
    [y] only: it is the same for [hstack], [maximum] and [where], it does
    not change when the operands are swapped, and the condition of [where]
    has no part in it. *)
Theorem dual_dispatch_symmetric (c c' x y : value) :
  called_backend (hstack x y) = called_backend (maximum x y) /\
  called_backend (maximum x y) = called_backend (where_ c x y) /\
  called_backend (where_ c x y) = called_backend (where_ c' x y) /\
  called_backend (hstack x y) = called_backend (hstack y x) /\
  called_backend (maximum x y) = called_backend (maximum y x) /\
  called_backend (where_ c x y) = called_backend (where_ c y x).
Proof.
  unfold hstack, maximum, where_, torch_is_tensor, isinstance_DeviceArray.
  destruct (obj x), (obj y); cbn; auto 10.
Qed.

(** X10. Dispatch against classification.  For operands that [get_datatype]
    classifies, the torch functions are called when both tags are torch
    tags, also when one tensor is on the CPU and the other on the GPU;
    the jax functions when both tags are [JAX]; and the numpy functions in
    every other case, which includes two host arrays. *)
Theorem dual_dispatch_by_tag (c x y : value) (A B : DataType) :
  get_datatype x = Return A ->
  get_datatype y = Return B ->
  let b :=
    match A, B with
    | (TORCH_CPU | TORCH_CUDA), (TORCH_CPU | TORCH_CUDA) => Torch
    | JAX, JAX => Jax
    | _, _ => Numpy
    end in
  called_backend (hstack x y) = Some b /\
  called_backend (maximum x y) = Some b /\
  called_backend (where_ c x y) = Some b.
Proof.
  unfold get_datatype, hstack, maximum, where_, torch_is_tensor,
    isinstance_DeviceArray, isinstance_ndarray, device_type_of.
  destruct (obj x), (obj y); cbn [andb]; intros Hx Hy;
    repeat case_decide; simplify_eq; cbn; auto.
Qed.

(** X11. Operands of one backend are handed to its function as they are: for
    two tensors, wherever they live and whether or not they track
    gradients, and for two DeviceArrays, nothing is coerced or copied
    before the call, and the condition of [where] is passed on unchecked. *)
Theorem same_backend_operands (σ : world elt) (c x y : value)
    (dc dx dy : list elt) :
  heap σ !! data_ptr c = Some dc ->
  heap σ !! data_ptr x = Some dx -> heap σ !! data_ptr y = Some dy ->
  let ac := Array (obj c) (shape c) dc in
  let ax := Array (obj x) (shape x) dx in
  let ay := Array (obj y) (shape y) dy in
  (both_tensors x y = true ->
     eval (hstack x y) σ = result (kernel2 torch_hstack ax ay) σ /\
     eval (maximum x y) σ = result (kernel2 torch_maximum ax ay) σ /\
     eval (where_ c x y) σ = result (kernel3 torch_where ac ax ay) σ) /\
  (both_DeviceArrays x y = true ->
     eval (hstack x y) σ = result (kernel2 jnp_hstack ax ay) σ /\
     eval (maximum x y) σ = result (kernel2 jnp_maximum ax ay) σ /\
     eval (where_ c x y) σ = result (kernel3 jnp_where ac ax ay) σ).
Proof.
  intros Hc Hx Hy.
  unfold both_tensors, both_DeviceArrays, hstack, maximum, where_,
    torch_is_tensor, isinstance_DeviceArray.
  destruct σ as [n h], c as [k oc sc pc], x as [i ox sx px],
    y as [j oy sy py]; cbn [obj shape data_ptr heap] in *.
  split; intros Hb; destruct ox, oy; try discriminate Hb; cbn [andb].
  all: repeat split.
  all: cbv [eval lib2 lib3 operand backend_of2 backend_of3 read contents
            mbind mret M_bind M_ret fmap option_fmap option_map
            obj shape data_ptr heap].
  all: rewrite ?Hc, ?Hx, ?Hy; reflexivity.
Qed.

Lemma numpy_on_arrays (σ : world elt) (c x y : value) (dc dx dy : list elt) :
  obj c = ndarray -> obj x = ndarray -> obj y = ndarray ->
  heap σ !! data_ptr c = Some dc ->
  heap σ !! data_ptr x = Some dx -> heap σ !! data_ptr y = Some dy ->
  eval (hstack x y) σ =
    result (kernel2 np_hstack (Array ndarray (shape x) dx)
                              (Array ndarray (shape y) dy)) σ /\
  eval (maximum x y) σ =
    result (kernel2 np_maximum (Array ndarray (shape x) dx)
                               (Array ndarray (shape y) dy)) σ /\
  eval (where_ c x y) σ =
    result (kernel3 np_where (Array ndarray (shape c) dc)
                             (Array ndarray (shape x) dx)
                             (Array ndarray (shape y) dy)) σ.
Proof.
  unfold hstack, maximum, where_, torch_is_tensor, isinstance_DeviceArray.
  destruct σ as [n h], c as [k oc sc pc], x as [i ox sx px],
    y as [j oy sy py]; cbn [obj shape data_ptr heap].
  intros -> -> -> Hc Hx Hy; cbn [andb].
  repeat split.
  all: cbv [eval lib2 lib3 operand backend_of2 backend_of3 asarray read
            contents mbind mret M_bind M_ret fmap option_fmap option_map
            obj shape data_ptr heap].
  all: rewrite ?Hc, ?Hx, ?Hy; reflexivity.
Qed.
End DualOperand.

Section Normalised.
Context {elt : Type} `{K : Kernels elt}.

(** X12. Converting the operands to host arrays first makes every dual-operand
    call reach the numpy function: whatever the three objects are (a GPU
    tensor, a tensor in gradient tracking, a list), the call on the
    converted values applies the host-array operation to their elements
    and can fail only where that operation does. *)
Theorem convert_then_operate (σ : world elt) (c x y : value)
    (dc dx dy : list elt) :
  heap σ !! data_ptr c = Some dc ->
  heap σ !! data_ptr x = Some dx -> heap σ !! data_ptr y = Some dy ->
  exists wc σ1 wx σ2 wy σ3,
    eval (datatype_convert c (Some NUMPY)) σ = Return (wc, σ1) /\
    eval (datatype_convert x (Some NUMPY)) σ1 = Return (wx, σ2) /\
    eval (datatype_convert y (Some NUMPY)) σ2 = Return (wy, σ3) /\
    let ac := Array ndarray (shape c) dc in
    let ax := Array ndarray (shape x) dx in
    let ay := Array ndarray (shape y) dy in
    eval (hstack wx wy) σ3 = result (kernel2 np_hstack ax ay) σ3 /\
    eval (maximum wx wy) σ3 = result (kernel2 np_maximum ax ay) σ3 /\
    eval (where_ wc wx wy) σ3 = result (kernel3 np_where ac ax ay) σ3.
Proof.
  intros Hc Hx Hy.
  destruct (datatype_convert_runs σ c NUMPY dc Hc)
    as (wc & σ1 & Ec & Tc%get_datatype_inv & Sc & Rc & [l1 L1] & _).
  assert (Hx1 : heap σ1 !! data_ptr x = Some dx)
    by (rewrite L1; by apply heap_old).
  assert (Hy1 : heap σ1 !! data_ptr y = Some dy)
    by (rewrite L1; by apply heap_old).
  destruct (datatype_convert_runs σ1 x NUMPY dx Hx1)
    as (wx & σ2 & Ex & Tx%get_datatype_inv & Sx & Rx & [l2 L2] & _).
  assert (Hy2 : heap σ2 !! data_ptr y = Some dy)
    by (rewrite L2; by apply heap_old).
  destruct (datatype_convert_runs σ2 y NUMPY dy Hy2)
    as (wy & σ3 & Ey & Ty%get_datatype_inv & Sy & Ry & [l3 L3] & _).
  exists wc, σ1, wx, σ2, wy, σ3. repeat split; try done.
  all: rewrite <- ?Sc, <- ?Sx, <- ?Sy.
  all: apply (numpy_on_arrays σ3 wc wx wy dc dx dy); try done.
  all: rewrite L3; apply heap_old; try done.
  all: rewrite L2; by apply heap_old.
Qed.
End Normalised.

(** * Further properties of [get_env_dimensions] *)

Section EnvDimsMore.
Implicit Types (σ : list (gmap string pyval)) (m : gmap string pyval).

Lemma get_env_dimensions_assign info is_goalenv env :
  get_env_dimensions info is_goalenv env =
    (dims ← new_dict;
     (let '(e1, e2, e3, e4) := dim_expressions is_goalenv env in
      assign_dims info e1 e2 e3 e4);;
     mret dims).
Proof.
  unfold get_env_dimensions, dim_expressions, gymvecenv.
  by destruct (match is_vector_env env with Some b => b | None => false end).
Qed.

Lemma setitem_run d key v σ m :
  σ !! d = Some m ->
  setitem d key v σ = (Return tt, <[d := <[key := v]> m]> σ).
Proof. intros Hm. unfold setitem. by rewrite Hm. Qed.

Lemma lookup_updated σ d m m' :
  σ !! d = Some m -> <[d := m']> σ !! d = Some m'.
Proof. intros Hm. apply list_lookup_insert_eq. by eapply lookup_lt_Some. Qed.

Lemma assign_dims_run info a o ag dg σ m :
  σ !! info = Some m ->
  assign_dims info (Return a) (Return o) (Return ag) (Return dg) σ =
    (Return tt, <[info := with_dims m a o ag dg]> σ).
Proof.
  intros Hm. unfold assign_dims, with_dims.
  cbv [mbind D_bind expression].
  rewrite (setitem_run _ _ _ _ m Hm).
  erewrite setitem_run by (by eapply lookup_updated).
  rewrite list_insert_insert_eq.
  erewrite setitem_run by (by eapply lookup_updated).
  rewrite list_insert_insert_eq.
  erewrite setitem_run by (by eapply lookup_updated).
  by rewrite list_insert_insert_eq.
Qed.

Lemma get_env_dimensions_run info is_goalenv env σ m a o ag dg :
  σ !! info = Some m ->
  dim_expressions is_goalenv env = (Return a, Return o, Return ag, Return dg) ->
  get_env_dimensions info is_goalenv env σ =
    (Return (length σ), <[info := with_dims m a o ag dg]> (σ ++ [∅])).
Proof.
  intros Hm He. rewrite get_env_dimensions_assign, He.
  cbv [mbind D_bind new_dict mret D_ret].
  erewrite assign_dims_run; [reflexivity|]. by apply heap_old.
Qed.

Lemma spaces_read_expressions env act obs :
  spaces_read env = (act, obs) ->
  exists na no,
    forall is_goalenv,
      dim_expressions is_goalenv env =
        (s ← getattr na act; shape_last s,
         if is_goalenv
         then s ← getattr no obs; o ← getitem s "observation"; shape_last o
         else s ← getattr no obs; shape_last s,
         if is_goalenv
         then s ← getattr no obs; o ← getitem s "achieved_goal"; shape_last o
         else Return PyNone,
         if is_goalenv
         then s ← getattr no obs; o ← getitem s "desired_goal"; shape_last o
         else Return PyNone).
Proof.
  unfold spaces_read, dim_expressions.
  destruct (gymvecenv env); intros [= <- <-]; eauto.
Qed.

(** X13. What a successful call writes.  With the action space and the
    observation space of the branch taken ([single_...] for a vector
    environment), every dimension is the last entry of a shape: for a
    plain environment the two goal dimensions are [None]; for a goal
    environment the three observation dimensions come from the sub-spaces
    "observation", "achieved_goal" and "desired_goal".  The value returned
    is the address of a new, empty dictionary. *)
Theorem get_env_dimensions_values σ info env m obs sa a :
  σ !! info = Some m ->
  spaces_read env = (Some (Box sa), obs) ->
  last sa = Some a ->
  (forall so o,
     obs = Some (Box so) -> last so = Some o ->
     get_env_dimensions info false env σ =
       (Return (length σ),
        <[info := with_dims m (PyInt a) (PyInt o) PyNone PyNone]> (σ ++ [∅]))) /\
  (forall sp so sg sd o ag dg,
     obs = Some (DictSpace sp) ->
     getitem (DictSpace sp) "observation" = Return (Box so) ->
     getitem (DictSpace sp) "achieved_goal" = Return (Box sg) ->
     getitem (DictSpace sp) "desired_goal" = Return (Box sd) ->
     last so = Some o -> last sg = Some ag -> last sd = Some dg ->
     get_env_dimensions info true env σ =
       (Return (length σ),
        <[info := with_dims m (PyInt a) (PyInt o) (PyInt ag) (PyInt dg)]>
          (σ ++ [∅]))).
Proof.
  intros Hm Hs Ha.
  destruct (spaces_read_expressions env _ _ Hs) as (na & no & He).
  split.
  - intros so o -> Ho. apply get_env_dimensions_run; [done|].
    rewrite He. cbn. by rewrite Ha, Ho.
  - intros sp so sg sd o ag dg -> Hso Hsg Hsd Ho Hag Hdg.
    apply get_env_dimensions_run; [done|].
    rewrite He. cbn [getattr mbind py_bind]. rewrite Hso, Hsg, Hsd.
    cbn. by rewrite Ha, Ho, Hag, Hdg.
Qed.

(** X14. A call that cannot read the action dimension changes nothing the
    caller can see: it raises before the first assignment, whether or not
    [info] is a dictionary, and leaves only the new empty dictionary
    behind.  The error tells why: the attribute is missing, the space has
    no shape tuple, or the tuple is empty. *)
Theorem get_env_dimensions_no_action_dim σ info is_goalenv env act obs :
  spaces_read env = (act, obs) ->
  (act = None ->
     exists msg, get_env_dimensions info is_goalenv env σ =
                   (Raise (AttributeError msg), σ ++ [∅])) /\
  (forall sp, act = Some (DictSpace sp) ->
     get_env_dimensions info is_goalenv env σ =
       (Raise (TypeError "'NoneType' object is not subscriptable"), σ ++ [∅])) /\
  (act = Some (Box []) ->
     get_env_dimensions info is_goalenv env σ =
       (Raise (IndexError "tuple index out of range"), σ ++ [∅])).
Proof.
  intros Hs.
  destruct (spaces_read_expressions env _ _ Hs) as (na & no & He).
  rewrite get_env_dimensions_assign, He.
  repeat split.
  - intros ->. eexists. reflexivity.
  - by intros sp ->.
  - by intros ->.
Qed.

(** X15. The update of [info] is not atomic.  When the action dimension can be
    read but the observation space does not fit the [is_goalenv] flag (a
    box for a goal environment, a dictionary space for a plain one) or is
    missing, the call raises after "action_dim" has been written: [info]
    keeps that one new entry. *)
Theorem get_env_dimensions_partial_update σ info env m obs sa a :
  σ !! info = Some m ->
  spaces_read env = (Some (Box sa), obs) ->
  last sa = Some a ->
  let σ1 := <[info := <["action_dim" := PyInt a]> m]> (σ ++ [∅]) in
  (forall so, obs = Some (Box so) ->
     get_env_dimensions info true env σ =
       (Raise (TypeError "'Box' object is not subscriptable"), σ1)) /\
  (forall sp, obs = Some (DictSpace sp) ->
     get_env_dimensions info false env σ =
       (Raise (TypeError "'NoneType' object is not subscriptable"), σ1)) /\
  (obs = None ->
     exists msg, forall is_goalenv,
       get_env_dimensions info is_goalenv env σ =
         (Raise (AttributeError msg), σ1)).
Proof.
  intros Hm Hs Ha σ1.
  destruct (spaces_read_expressions env _ _ Hs) as (na & no & He).
  assert (Hm1 : (σ ++ [∅]) !! info = Some m) by (by apply heap_old).
  repeat split.
  - intros so ->. rewrite get_env_dimensions_assign, He.
    cbv [mbind D_bind new_dict assign_dims expression py_bind getattr shape_last].
    rewrite Ha. by rewrite (setitem_run _ _ _ _ m Hm1).
  - intros sp ->. rewrite get_env_dimensions_assign, He.
    cbv [mbind D_bind new_dict assign_dims expression py_bind getattr shape_last].
    rewrite Ha. by rewrite (setitem_run _ _ _ _ m Hm1).
  - intros ->. eexists. intros g. rewrite get_env_dimensions_assign, He.
    cbv [mbind D_bind new_dict assign_dims expression py_bind getattr shape_last].
    rewrite Ha. rewrite (setitem_run _ _ _ _ m Hm1). by destruct g.
Qed.

Lemma setitem_frame d key v σ m r σ' :
  σ !! d = Some m ->
  In key dim_keys ->
  setitem d key v σ = (r, σ') ->
  exists m', σ' = <[d := m']> σ /\ forall k, ¬ In k dim_keys -> m' !! k = m !! k.
Proof.
  intros Hm Hk. rewrite (setitem_run _ _ _ _ m Hm). intros [= _ <-].
  exists (<[key := v]> m). split; [done|].
  intros k Hn. apply lookup_insert_ne. by intros ->.
Qed.

Lemma assign_frame d key (e : py pyval) (k : D unit) σ m r σ' :
  σ !! d = Some m ->
  In key dim_keys ->
  (forall σ1 m1, σ1 !! d = Some m1 -> k σ1 = (r, σ') ->
     exists m', σ' = <[d := m']> σ1 /\
                forall j, ¬ In j dim_keys -> m' !! j = m1 !! j) ->
  (v ← expression e; setitem d key v;; k) σ = (r, σ') ->
  exists m', σ' = <[d := m']> σ /\ forall j, ¬ In j dim_keys -> m' !! j = m !! j.
Proof.
  intros Hm Hk Hrest. cbv [mbind D_bind expression].
  destruct e as [v|err].
  - rewrite (setitem_run _ _ _ _ m Hm). intros Hrun.
    destruct (Hrest _ (<[key := v]> m) (lookup_updated _ _ _ _ Hm) Hrun)
      as (m' & -> & Hm').
    exists m'. split; [by rewrite list_insert_insert_eq|].
    intros j Hj. rewrite (Hm' j Hj). apply lookup_insert_ne. by intros ->.
  - intros [= _ <-]. exists m. split; [by rewrite list_insert_id|done].
Qed.

Lemma assign_dims_frame info e1 e2 e3 e4 σ m r σ' :
  σ !! info = Some m ->
  assign_dims info e1 e2 e3 e4 σ = (r, σ') ->
  exists m', σ' = <[info := m']> σ /\
             forall k, ¬ In k dim_keys -> m' !! k = m !! k.
Proof.
  intros Hm. unfold assign_dims.
  apply assign_frame; [done | cbn; tauto |]. intros σ1 m1 Hm1.
  apply assign_frame; [done | cbn; tauto |]. intros σ2 m2 Hm2.
  apply assign_frame; [done | cbn; tauto |]. intros σ3 m3 Hm3.
  cbv [mbind D_bind expression]. destruct e4 as [v|err].
  - apply setitem_frame; [done | cbn; tauto].
  - intros [= _ <-]. exists m3. split; [by rewrite list_insert_id|done].
Qed.

(** X16. Whatever the outcome, a value or an exception, a call on a dictionary
    [info] leaves one new dictionary behind, which is empty, touches no
    other dictionary, and in [info] changes nothing but the four dimension
    keys. *)
Theorem get_env_dimensions_frame σ info is_goalenv env m r σ' :
  σ !! info = Some m ->
  get_env_dimensions info is_goalenv env σ = (r, σ') ->
  length σ' = S (length σ) /\
  σ' !! length σ = Some ∅ /\
  (forall l, l <> info -> l < length σ -> σ' !! l = σ !! l) /\
  exists m', σ' !! info = Some m' /\
             forall k, ¬ In k dim_keys -> m' !! k = m !! k.
Proof.
  intros Hm. rewrite get_env_dimensions_assign.
  destruct (dim_expressions is_goalenv env) as [[[e1 e2] e3] e4].
  cbv [mbind D_bind new_dict mret D_ret].
  destruct (assign_dims info e1 e2 e3 e4 (σ ++ [∅])) as [r1 σ1] eqn:Ha.
  assert (Hm1 : (σ ++ [∅]) !! info = Some m) by (by apply heap_old).
  destruct (assign_dims_frame _ _ _ _ _ _ m _ _ Hm1 Ha) as (m' & -> & Hk).
  assert (Hlt : info < length σ) by (by eapply lookup_lt_Some).
  intros Hres.
  assert (σ' = <[info := m']> (σ ++ [∅])) as ->
    by (destruct r1 as [[]|]; congruence).
  clear Ha Hres. repeat split.
  - rewrite length_insert, length_app. cbn. lia.
  - rewrite list_lookup_insert_ne by lia. apply heap_new.
  - intros l Hl Hlen. rewrite list_lookup_insert_ne by done.
    by rewrite lookup_app_l.
  - exists m'. split; [|done]. by eapply lookup_updated.
Qed.

Lemma with_dims_idemp m a o ag dg :
  with_dims (with_dims m a o ag dg) a o ag dg = with_dims m a o ag dg.
Proof.
  apply map_eq. intros k. unfold with_dims.
  rewrite !lookup_insert. repeat case_decide; done.
Qed.

(** X17. Asking again changes nothing more: a second call with the same
    arguments, after a first one that returned, leaves [info] as the
    first call left it and returns one more new empty dictionary. *)
Theorem get_env_dimensions_twice σ info is_goalenv env m dims σ1 :
  σ !! info = Some m ->
  get_env_dimensions info is_goalenv env σ = (Return dims, σ1) ->
  get_env_dimensions info is_goalenv env σ1 = (Return (S dims), σ1 ++ [∅]).
Proof.
  intros Hm H1.
  assert (Hm0 : (σ ++ [∅]) !! info = Some m) by (by apply heap_old).
  pose proof H1 as Hrun. rewrite get_env_dimensions_assign in Hrun.
  destruct (dim_expressions is_goalenv env) as [[[e1 e2] e3] e4] eqn:He.
  apply D_bind_inv in Hrun as (d & σ0 & [= <- <-] & Hrun).
  apply D_bind_inv in Hrun as ([] & σ2 & Ha & [= <- <-]).
  apply assign_dims_inv in Ha
    as (m' & a & o & ag & dg & -> & -> & -> & -> & Hm' & ->).
  rewrite Hm0 in Hm'. injection Hm' as <-.
  set (σ1 := <[info := with_dims m a o ag dg]> (σ ++ [∅])).
  assert (Hm1 : σ1 !! info = Some (with_dims m a o ag dg))
    by (by eapply lookup_updated).
  rewrite (get_env_dimensions_run info is_goalenv env σ1 _ a o ag dg Hm1 He).
  rewrite with_dims_idemp.
  rewrite (list_insert_id (σ1 ++ [∅])) by (by apply heap_old).
  f_equal. f_equal. unfold σ1. rewrite length_insert, length_app. cbn. lia.
Qed.
End EnvDimsMore.

(** * The RLJAX agent *)

Section Agent.
Implicit Types (m sp : gmap string lit).

Lemma override_loop_lookup m keys sp :
  exists sp', override_loop (Some m) keys sp = Return sp' /\
    forall k, sp' !! k =
      if decide (k ∈ keys) then
        match m !! k with Some v => Some v | None => sp !! k end
      else sp !! k.
Proof.
  revert sp. induction keys as [|key rest IH]; intros sp; cbn.
  - exists sp. split; [done|]. intros k. rewrite decide_False; [done|].
    apply not_elem_of_nil.
  - destruct (IH (override_step m sp key)) as (sp' & -> & Hsp').
    exists sp'. split; [done|]. intros k. rewrite Hsp'.
    assert (Hstep : k <> key -> override_step m sp key !! k = sp !! k).
    { intros Hne. unfold override_step.
      destruct (m !! key); [by rewrite lookup_insert_ne|done]. }
    assert (Hkey : override_step m sp key !! key =
                   match m !! key with Some v => Some v | None => sp !! key end).
    { unfold override_step. destruct (m !! key); [by rewrite lookup_insert_eq|done]. }
    destruct (decide (k ∈ rest)) as [Hr|Hr],
      (decide (k ∈ key :: rest)) as [Hk|Hk];
      rewrite elem_of_cons in Hk; try (exfalso; tauto).
    + destruct (m !! k) eqn:Hm; [done|].
      destruct (decide (k = key)) as [->|Hne]; [|by apply Hstep].
      by rewrite Hkey, Hm.
    + assert (k = key) as -> by tauto. exact Hkey.
    + apply Hstep. tauto.
Qed.

Lemma RLJAXSAC_init_inv params base draw agent :
  RLJAXSAC_init (Some params) (Return (Some base)) draw = Return agent ->
  self_params agent = Some base /\
  self_sac agent =
    SAC_call {| attr_params := Some base;
                attr_sac_params := self_sac_params agent |}
      (default (LInt draw) (params !! "seed")) /\
  forall k,
    self_sac_params agent !! k =
      match (list_to_map sac_params_default : gmap string lit) !! k with
      | Some v0 => Some (default v0 (base !! k))
      | None => None
      end.
Proof.
  unfold RLJAXSAC_init. cbn [mbind py_bind].
  destruct (override_loop_lookup base sac_params_default.*1
              (list_to_map sac_params_default)) as (sp' & Hrun & Hsp').
  destruct (params !! "seed"); cbn [mbind py_bind]; rewrite Hrun;
    cbn [mbind py_bind]; intros [= <-];
    cbn [self_sac_params self_sac self_params default];
    (split; [done|]); (split; [done|]); intros k; rewrite Hsp'.
  all: destruct (list_to_map sac_params_default !! k) as [v0|] eqn:Hl.
  all: case_decide as Hin.
  all: try (by destruct (base !! k)).
  all: try (apply not_elem_of_list_to_map_1 in Hin; congruence).
  all: try (apply not_elem_of_list_to_map in Hl; contradiction).
Qed.

(** X18. After [__init__], [self.sac_params] has the twelve keys of the
    dictionary literal and no other: a key that [self.params] has holds
    the value from [self.params], every other key keeps the value of the
    literal, and the keys of [self.params] outside the twelve are left
    out. *)
Theorem sac_params_overridden params base draw agent :
  RLJAXSAC_init (Some params) (Return (Some base)) draw = Return agent ->
  forall k,
    self_sac_params agent !! k =
      match (list_to_map sac_params_default : gmap string lit) !! k with
      | Some v0 => Some (default v0 (base !! k))
      | None => None
      end.
Proof. intros H. by apply RLJAXSAC_init_inv in H as (_ & _ & H). Qed.


(** X20. The default of [params] cannot be used: with [params] left out, or
    passed as [None], no agent is built.  Whatever the initialiser of the
    base class does, [__init__] raises; when that initialiser returns,
    the exception is the [TypeError] of the test ["seed" not in params]. *)
Theorem RLJAXSAC_init_without_params super_init base draw :
  (exists e, RLJAXSAC_init None super_init draw = Raise e) /\
  (exists msg, RLJAXSAC_init None (Return base) draw = Raise (TypeError msg)).
Proof.
  split; [|by eexists].
  unfold RLJAXSAC_init. destruct super_init as [b|e]; by eexists.
Qed.
End Agent.

(** * Instances of the further properties *)

Lemma datatype_convert_any_object_witness :
  exists r σ',
    eval (K := Z_kernels) (datatype_convert plain_list (Some TORCH_CUDA)) store0
      = Return (r, σ') /\
    get_datatype r = Return TORCH_CUDA /\
    shape r = [3] /\
    (exists d', heap σ' !! data_ptr r = Some d' /\ length d' = 3) /\
    buffers_kept store0 σ'.
Proof.
  apply (datatype_convert_any_object (K := Z_kernels)
           store0 plain_list TORCH_CUDA [7; 8; 9]%Z); reflexivity.
Defined.

Lemma datatype_convert_twice_witness :
  exists r σ',
    eval (K := Z_kernels) (datatype_convert xla_tensor (Some JAX)) store0
      = Return (r, σ') /\
    eval (datatype_convert r (Some JAX)) σ' = Return (r, σ').
Proof.
  apply (datatype_convert_twice (K := Z_kernels)
           store0 xla_tensor JAX [2; 2; 2]%Z); reflexivity.
Defined.

Lemma datatype_convert_zero_copy_witness :
  exists r σ',
    eval (K := Z_kernels) (datatype_convert cpu_tensor (Some NUMPY)) store0
      = Return (r, σ') /\
    data_ptr r = data_ptr cpu_tensor.
Proof.
  eexists _, _. split; [reflexivity|].
  destruct (datatype_convert_zero_copy (K := Z_kernels)
              store0 cpu_tensor NUMPY [1; 5; 2]%Z _ _ eq_refl eq_refl)
    as [[_ Hshare] _].
  apply Hshare. right. split; [reflexivity|]. exists false. reflexivity.
Defined.

Lemma datatype_convert_to_torch_witness :
  exists r σ',
    eval (K := Z_kernels) (datatype_convert host_array (Some TORCH_CUDA)) store0
      = Return (r, σ') /\
    obj r = Tensor "cuda" false /\
    ((exists g, obj host_array = Tensor "cuda" g) -> r = host_array /\ σ' = store0) /\
    ((forall g, obj host_array <> Tensor "cuda" g) -> fresh_buffer store0 r).
Proof.
  apply (datatype_convert_to_torch (K := Z_kernels)
           store0 host_array TORCH_CUDA "cuda" [4; 0; 6]%Z);
    [reflexivity | right; split; reflexivity].
Defined.

Lemma reshape_returns_witness :
  exists r σ',
    eval (K := Z_kernels) (reshape gpu_tensor [2; -1]%Z) store0
      = Return (r, σ') /\
    shape r = [2; 6] /\
    obj r = Tensor "cuda" true /\
    heap σ' !! data_ptr r = Some [1; 2; 3; 4; 5; 6; 7; 8; 9; 10; 11; 12]%Z /\
    buffers_kept store0 σ'.
Proof.
  eexists _, _. split; [reflexivity|].
  destruct (reshape_returns (K := Z_kernels) store0 gpu_tensor [2; -1]%Z
              [1; 2; 3; 4; 5; 6; 7; 8; 9; 10; 11; 12]%Z _ _ eq_refl eq_refl)
    as (_ & Hclass & Helts & Hkept & _).
  split; [reflexivity|]. split; [exact Hclass|].
  split; [exact Helts | exact Hkept].
Defined.

Lemma squeeze_returns_witness :
  exists r σ',
    eval (K := Z_kernels) (squeeze gpu_tensor) store0 = Return (r, σ') /\
    shape r = squeeze_shape [4; 3] /\ (1 ∉ shape r) /\
    heap σ' !! data_ptr r = Some [1; 2; 3; 4; 5; 6; 7; 8; 9; 10; 11; 12]%Z /\
    buffers_kept store0 σ' /\
    (torch_is_tensor gpu_tensor || isinstance_ndarray gpu_tensor = true ->
     data_ptr r = data_ptr gpu_tensor /\ heap σ' = heap store0).
Proof.
  apply (squeeze_returns (K := Z_kernels) store0 gpu_tensor
           [1; 2; 3; 4; 5; 6; 7; 8; 9; 10; 11; 12]%Z); reflexivity.
Defined.

Lemma single_operand_keeps_tag_witness :
  exists r σ',
    eval (K := Z_kernels) (squeeze plain_list) store0 = Return (r, σ') /\
    get_datatype r = Return NUMPY.
Proof.
  eexists _, _. split; [reflexivity|].
  destruct (single_operand_keeps_tag (K := Z_kernels) store0 plain_list []
              [7; 8; 9]%Z (squeeze plain_list) _ _
              eq_refl (or_intror eq_refl) eq_refl) as [_ Hlist].
  exact (Hlist "list" eq_refl).
Defined.

Lemma squeeze_twice_witness :
  exists r σ1 r2 σ2,
    eval (K := Z_kernels) (squeeze jax_array) store0 = Return (r, σ1) /\
    eval (squeeze r) σ1 = Return (r2, σ2) /\
    obj r2 = obj r /\ shape r2 = shape r /\
    heap σ2 !! data_ptr r2 = Some [3; 3; 3]%Z.
Proof.
  apply (squeeze_twice (K := Z_kernels) store0 jax_array [3; 3; 3]%Z);
    reflexivity.
Defined.

Lemma dual_dispatch_by_tag_witness :
  called_backend (hstack cpu_tensor gpu_vector) = Some Torch /\
  called_backend (maximum cpu_tensor gpu_vector) = Some Torch /\
  called_backend (where_ host_array cpu_tensor gpu_vector) = Some Torch.
Proof.
  exact (dual_dispatch_by_tag host_array cpu_tensor gpu_vector
           TORCH_CPU TORCH_CUDA eq_refl eq_refl).
Defined.

Lemma same_backend_operands_witness :
  eval (K := Z_kernels) (maximum cpu_tensor gpu_vector) store0 =
    result (kernel2 torch_maximum
              (Array (Tensor "cpu" false) [3] [1; 5; 2]%Z)
              (Array (Tensor "cuda" false) [3] [9; 1; 4]%Z)) store0.
Proof.
  destruct (same_backend_operands (K := Z_kernels) store0
              host_array cpu_tensor gpu_vector
              [4; 0; 6]%Z [1; 5; 2]%Z [9; 1; 4]%Z eq_refl eq_refl eq_refl)
    as [Htorch _].
  destruct (Htorch eq_refl) as (_ & Hmax & _). exact Hmax.
Defined.

Lemma convert_then_operate_witness :
  exists wc σ1 wx σ2 wy σ3,
    eval (K := Z_kernels) (datatype_convert host_array (Some NUMPY)) store0
      = Return (wc, σ1) /\
    eval (datatype_convert gpu_tensor (Some NUMPY)) σ1 = Return (wx, σ2) /\
    eval (datatype_convert plain_list (Some NUMPY)) σ2 = Return (wy, σ3) /\
    let ac := Array ndarray [3] [4; 0; 6]%Z in
    let ax := Array ndarray [4; 3]
                [1; 2; 3; 4; 5; 6; 7; 8; 9; 10; 11; 12]%Z in
    let ay := Array ndarray [3] [7; 8; 9]%Z in
    eval (hstack wx wy) σ3 = result (kernel2 np_hstack ax ay) σ3 /\
    eval (maximum wx wy) σ3 = result (kernel2 np_maximum ax ay) σ3 /\
    eval (where_ wc wx wy) σ3 = result (kernel3 np_where ac ax ay) σ3.
Proof.
  apply (convert_then_operate (K := Z_kernels) store0
           host_array gpu_tensor plain_list); reflexivity.
Defined.

Lemma get_env_dimensions_values_witness :
  get_env_dimensions 0 false box_env caller_store =
    (Return 1,
     <[0 := with_dims {[ "env_name" := PyStr "HalfCheetah-v4" ]}
              (PyInt 2) (PyInt 17) PyNone PyNone]> (caller_store ++ [∅])).
Proof.
  destruct (get_env_dimensions_values caller_store 0 box_env
              {[ "env_name" := PyStr "HalfCheetah-v4" ]}
              (Some (Box [4; 17]%Z)) [2%Z] 2%Z eq_refl eq_refl eq_refl)
    as [Hplain _].
  exact (Hplain [4; 17]%Z 17%Z eq_refl eq_refl).
Defined.

Lemma get_env_dimensions_no_action_dim_witness :
  exists msg,
    get_env_dimensions 0 false spaceless_env caller_store =
      (Raise (AttributeError msg), caller_store ++ [∅]).
Proof.
  destruct (get_env_dimensions_no_action_dim caller_store 0 false
              spaceless_env None (Some (Box [4%Z])) eq_refl)
    as [Hmissing _].
  exact (Hmissing eq_refl).
Defined.

Lemma get_env_dimensions_partial_update_witness :
  get_env_dimensions 0 true box_env caller_store =
    (Raise (TypeError "'Box' object is not subscriptable"),
     <[0 := <["action_dim" := PyInt 2]>
              {[ "env_name" := PyStr "HalfCheetah-v4" ]}]>
       (caller_store ++ [∅])).
Proof.
  destruct (get_env_dimensions_partial_update caller_store 0 box_env
              {[ "env_name" := PyStr "HalfCheetah-v4" ]}
              (Some (Box [4; 17]%Z)) [2%Z] 2%Z eq_refl eq_refl eq_refl)
    as [Hbox _].
  exact (Hbox [4; 17]%Z eq_refl).
Defined.

Lemma get_env_dimensions_frame_witness :
  exists r σ',
    get_env_dimensions 0 true box_env caller_store = (r, σ') /\
    length σ' = 2 /\
    σ' !! 1 = Some ∅ /\
    exists m', σ' !! 0 = Some m' /\
               m' !! "env_name" = Some (PyStr "HalfCheetah-v4").
Proof.
  eexists _, _. split; [reflexivity|].
  destruct (get_env_dimensions_frame caller_store 0 true box_env
              {[ "env_name" := PyStr "HalfCheetah-v4" ]} _ _ eq_refl eq_refl)
    as (Hlen & Hnew & _ & m' & Hm' & Hkeys).
  split; [exact Hlen|]. split; [exact Hnew|].
  exists m'. split; [exact Hm'|].
  rewrite (Hkeys "env_name"); [reflexivity|].
  cbn. intros [H|[H|[H|[H|[]]]]]; discriminate H.
Defined.

Lemma get_env_dimensions_twice_witness :
  exists σ1,
    get_env_dimensions 0 true goal_vec_env caller_store = (Return 1, σ1) /\
    get_env_dimensions 0 true goal_vec_env σ1 = (Return 2, σ1 ++ [∅]).
Proof.
  eexists. split; [reflexivity|].
  exact (get_env_dimensions_twice caller_store 0 true goal_vec_env
           {[ "env_name" := PyStr "HalfCheetah-v4" ]} 1 _ eq_refl eq_refl).
Defined.

Lemma sac_params_overridden_witness :
  exists agent,
    RLJAXSAC_init (Some seeded_params) (Return (Some seeded_params)) 0
      = Return agent /\
    self_sac_params agent !! "tau" = Some (LFloat "1e-2") /\
    self_sac_params agent !! "actor_lr" = Some (LFloat "3e-4") /\
    self_sac_params agent !! "gamma" = None.
Proof.
  eexists. split; [reflexivity|].
  pose proof (sac_params_overridden seeded_params seeded_params 0 _ eq_refl)
    as Hkeys.
  rewrite !Hkeys. repeat split; reflexivity.
Defined.

